(** * CalculadoraCientifica: the expression-state and formatting core

    A shallow embedding of [client/src/pages/calculator.tsx]: the calculator
    state, the handlers that edit the expression, the glyph translation of
    [calculateResult] and the display policy of [formatResult], together with
    the JavaScript primitives they are written with.

    Strings are sequences of UTF-16 code units, numbers are IEEE 754 binary64
    values ([spec_float] at precision 53), and the two functions imported
    from mathjs ([evaluate], [format]) are an interface the development is
    parameterised by. *)

From Stdlib Require Import ZArith NArith List Bool String Ascii Lia.
From Stdlib Require Import Floats.SpecFloat.
From Stdlib Require Import DecimalString.
Import ListNotations.

Local Open Scope Z_scope.

(* ================================================================== *)
(** * JavaScript strings *)
(* ================================================================== *)

Module JsString.

(** A JavaScript string is a sequence of UTF-16 code units. *)
Definition jsstring := list N.

Definition eq_dec (a b : jsstring) : {a = b} + {a <> b} :=
  list_eq_dec N.eq_dec a b.

(** [a === b] on strings. *)
Definition str_eq (a b : jsstring) : bool :=
  if eq_dec a b then true else false.

(** Source literals are written in UTF-8; every character the page uses lies
    in the Basic Multilingual Plane, hence is one code unit. *)
Fixpoint utf8_decode (bytes : list N) : jsstring :=
  match bytes with
  | [] => []
  | b0 :: rest =>
    if (b0 <? 128)%N then b0 :: utf8_decode rest
    else if (b0 <? 224)%N then
      match rest with
      | b1 :: rest' => ((b0 mod 32) * 64 + b1 mod 64)%N :: utf8_decode rest'
      | [] => []
      end
    else
      match rest with
      | b1 :: b2 :: rest' =>
        ((b0 mod 16) * 4096 + (b1 mod 64) * 64 + b2 mod 64)%N :: utf8_decode rest'
      | _ => []
      end
  end.

Definition js (s : string) : jsstring :=
  utf8_decode (map N_of_ascii (list_ascii_of_string s)).

(** The display glyphs, by code point. *)
Definition PLUS : N := 43.          (* U+002B + *)
Definition MINUS_SIGN : N := 8722.  (* U+2212 − *)
Definition TIMES : N := 215.        (* U+00D7 × *)
Definition DIVIDE : N := 247.       (* U+00F7 ÷ *)
Definition PI_GLYPH : N := 960.     (* U+03C0 π *)
Definition ROOT : N := 8730.        (* U+221A √ *)
Definition SUPER_TWO : N := 178.    (* U+00B2 ² *)
Definition DOT : N := 46.           (* U+002E . *)

Definition is_empty (s : jsstring) : bool :=
  match s with [] => true | _ :: _ => false end.

(** [s.slice(start, end)]: negative indices count from the end, both are
    clamped to the string. *)
Definition clamp_index (len i : Z) : Z :=
  if i <? 0 then Z.max (len + i) 0 else Z.min i len.

Definition slice (s : jsstring) (start stop : Z) : jsstring :=
  let len := Z.of_nat (List.length s) in
  let from := clamp_index len start in
  let to := clamp_index len stop in
  firstn (Z.to_nat (to - from)) (skipn (Z.to_nat from) s).

(** [s.slice(start)]: the end defaults to the length. *)
Definition slice_from (s : jsstring) (start : Z) : jsstring :=
  slice s start (Z.of_nat (List.length s)).

Fixpoint starts_with (pat s : jsstring) : bool :=
  match pat, s with
  | [], _ => true
  | p :: pat', c :: s' => (p =? c)%N && starts_with pat' s'
  | _ :: _, [] => false
  end.

(** [s.includes(pat)]: [pat] occurs somewhere in [s]. *)
Fixpoint includes (s pat : jsstring) : bool :=
  starts_with pat s ||
  match s with
  | [] => false
  | _ :: s' => includes s' pat
  end.

(** [array.includes(x)] on an array of strings. *)
Definition array_includes (arr : list jsstring) (x : jsstring) : bool :=
  existsb (str_eq x) arr.

(** [s.replace(/pat/g, rep)] for a literal, non-empty pattern: matches are
    found left to right and do not overlap; [skip] counts the code units of
    the current match that are still to be dropped. *)
Fixpoint replace_from (pat rep : jsstring) (skip : nat) (s : jsstring) : jsstring :=
  match s with
  | [] => []
  | c :: s' =>
    match skip with
    | S k => replace_from pat rep k s'
    | O =>
      if starts_with pat s
      then rep ++ replace_from pat rep (List.length pat - 1) s'
      else c :: replace_from pat rep 0 s'
    end
  end.

Definition replace_all (pat rep s : jsstring) : jsstring :=
  replace_from pat rep 0 s.

(** [s.split(/[...]/)] for a character class: the pieces between the
    separators, a trailing separator giving a trailing empty piece. *)
Fixpoint split_class (sep : N -> bool) (s : jsstring) : list jsstring :=
  match s with
  | [] => [[]]
  | c :: s' =>
    if sep c then [] :: split_class sep s'
    else
      match split_class sep s' with
      | part :: parts => (c :: part) :: parts
      | [] => [[c]]
      end
  end.

(** [arr[i]] on an array of strings ([undefined] never arises below). *)
Definition index (arr : list jsstring) (i : nat) : jsstring :=
  nth i arr [].

(** WhiteSpace and LineTerminator code points, as stripped by [trim] and
    skipped by [parseFloat]. *)
Definition is_white_space (c : N) : bool :=
  ((9 <=? c) && (c <=? 13) || (c =? 32) || (c =? 160) || (c =? 5760)
   || (8192 <=? c) && (c <=? 8202) || (c =? 8232) || (c =? 8233)
   || (c =? 8239) || (c =? 8287) || (c =? 12288) || (c =? 65279))%N.

Fixpoint trim_start (s : jsstring) : jsstring :=
  match s with
  | [] => []
  | c :: s' => if is_white_space c then trim_start s' else s
  end.

Definition trim_end (s : jsstring) : jsstring :=
  rev (trim_start (rev s)).

Definition trim (s : jsstring) : jsstring :=
  trim_end (trim_start s).

End JsString.

Import JsString.

(* ================================================================== *)
(** * JavaScript numbers *)
(* ================================================================== *)

Module JsNumber.

(** A JavaScript number is an IEEE 754 binary64 value. *)
Definition prec : Z := 53.
Definition emax : Z := 1024.
Definition number := spec_float.

Definition NaN : number := S754_nan.
Definition Infinity : number := S754_infinity false.
Definition zero : number := S754_zero false.

(** [isFinite(v)] and [isNaN(v)]. *)
Definition isFinite (v : number) : bool :=
  match v with
  | S754_zero _ | S754_finite _ _ _ => true
  | S754_infinity _ | S754_nan => false
  end.

Definition isNaN (v : number) : bool :=
  match v with
  | S754_nan => true
  | _ => false
  end.

Definition Math_abs (v : number) : number := SFabs v.

(** [a >= b], [a < b], [a !== b] and the arithmetic of [+] and [-]. *)
Definition ge (a b : number) : bool := SFleb b a.
Definition lt (a b : number) : bool := SFltb a b.
Definition strict_neq (a b : number) : bool := negb (SFeqb a b).
Definition add (a b : number) : number := SFadd prec emax a b.
Definition sub (a b : number) : number := SFsub prec emax a b.

(** The number nearest to [num / den] (ties to even), for [num >= 0] and
    [den > 0]. *)
Definition round_ratio (neg : bool) (num den : Z) : number :=
  let '(q, e, l) := SFdiv_core_binary prec emax num 0 den 0 in
  binary_round_aux prec emax neg q e l.

(** The value of the decimal numeral [m * 10^e10], [m >= 0]. *)
Definition of_decimal (neg : bool) (m e10 : Z) : number :=
  if m =? 0 then S754_zero neg
  else if 0 <=? e10 then round_ratio neg (m * 10 ^ e10) 1
  else round_ratio neg m (10 ^ (- e10)).

(** ** Decimal digits *)

Definition is_digit (c : N) : bool := ((48 <=? c) && (c <=? 57))%N.

Fixpoint span_digits (s : jsstring) : jsstring * jsstring :=
  match s with
  | [] => ([], [])
  | c :: s' =>
    if is_digit c
    then let '(ds, rest) := span_digits s' in (c :: ds, rest)
    else ([], s)
  end.

Definition digits_value (ds : jsstring) : Z :=
  fold_left (fun acc c => acc * 10 + (Z.of_N c - 48)) ds 0.

(** The decimal digits of a natural number, without leading zeros. *)
Definition decimal_digits (n : Z) : jsstring :=
  js (NilZero.string_of_uint (N.to_uint (Z.to_N n))).

Definition zeros (n : Z) : jsstring := repeat 48%N (Z.to_nat n).

(** ** [parseFloat] *)

(** ExponentPart, when present and well formed: its value and what follows. *)
Definition scan_exponent (s : jsstring) : Z * jsstring :=
  match s with
  | c :: s1 =>
    if ((c =? 101) || (c =? 69))%N then
      let '(neg, s2) :=
        match s1 with
        | 43%N :: t => (false, t)
        | 45%N :: t => (true, t)
        | _ => (false, s1)
        end in
      let '(ds, rest) := span_digits s2 in
      if is_empty ds then (0, s)
      else ((if neg then - digits_value ds else digits_value ds), rest)
    else (0, s)
  | [] => (0, s)
  end.

(** The longest prefix that is an unsigned decimal literal (other than
    [Infinity]): its digits as an integer, its decimal exponent and the rest
    of the string. *)
Definition scan_unsigned (s : jsstring) : option (Z * Z * jsstring) :=
  let '(int_ds, s1) := span_digits s in
  let '(frac_ds, s2) :=
    match s1 with
    | 46%N :: t =>
      let '(fd, r) := span_digits t in
      if is_empty int_ds && is_empty fd then ([], s1) else (fd, r)
    | _ => ([], s1)
    end in
  if is_empty int_ds && is_empty frac_ds then None
  else
    let '(e, rest) := scan_exponent s2 in
    Some (digits_value (int_ds ++ frac_ds),
          e - Z.of_nat (List.length frac_ds), rest).

Definition parseFloat (s : jsstring) : number :=
  let t := trim_start s in
  let '(neg, u) :=
    match t with
    | 43%N :: u => (false, u)
    | 45%N :: u => (true, u)
    | _ => (false, t)
    end in
  if starts_with (js "Infinity") u then S754_infinity neg
  else
    match scan_unsigned u with
    | Some (m, e, _) => of_decimal neg m e
    | None => NaN
    end.

(** The number a decimal literal of the source text denotes. *)
Definition literal (s : string) : number := parseFloat (js s).

(** ** [Number.prototype.toExponential] *)

(** [|v| = num / den] for a finite [v]. *)
Definition exact_ratio (v : number) : Z * Z :=
  match v with
  | S754_finite _ m e =>
    if 0 <=? e then (Zpos m * 2 ^ e, 1) else (Zpos m, 2 ^ (- e))
  | _ => (0, 1)
  end.

(** [floor (log10 (num / den))] for [num, den > 0]. *)
Definition floor_log10 (num den : Z) : Z :=
  if den <=? num
  then Z.of_nat (List.length (decimal_digits (num / den))) - 1
  else - Z.of_nat (List.length (decimal_digits ((den - 1) / num))).

Definition round_half_up (a b : Z) : Z := (2 * a + b) / (2 * b).

(** The integers [n] and [e] with [10^f <= n < 10^(f+1)] for which
    [n * 10^(e-f)] is nearest to [num / den], the larger one on a tie. *)
Definition exponential_digits (num den f : Z) : Z * Z :=
  let e0 := floor_log10 num den in
  let n0 :=
    if 0 <=? f - e0
    then round_half_up (num * 10 ^ (f - e0)) den
    else round_half_up num (den * 10 ^ (e0 - f)) in
  if n0 =? 10 ^ (f + 1) then (10 ^ f, e0 + 1) else (n0, e0).

Definition toExponential (v : number) (f : Z) : jsstring :=
  match v with
  | S754_nan => js "NaN"
  | S754_infinity false => js "Infinity"
  | S754_infinity true => js "-Infinity"
  | _ =>
    let s := if lt v zero then js "-" else [] in
    let '(n, e) :=
      match v with
      | S754_finite _ _ _ =>
        let '(num, den) := exact_ratio v in exponential_digits num den f
      | _ => (0, 0)
      end in
    let m :=
      match v with
      | S754_finite _ _ _ => decimal_digits n
      | _ => zeros (f + 1)
      end in
    let m := if f =? 0 then m else firstn 1 m ++ js "." ++ skipn 1 m in
    let c := if 0 <=? e then js "+" else js "-" in
    let d := decimal_digits (Z.abs e) in
    s ++ m ++ js "e" ++ c ++ d
  end.

(** ** [Number.prototype.toString] *)

(** Equality of two values as numbers of the same representation. *)
Definition same_number (a b : number) : bool :=
  match a, b with
  | S754_finite sa ma ea, S754_finite sb mb eb =>
    Bool.eqb sa sb && (ma =? mb)%positive && (ea =? eb)
  | S754_zero sa, S754_zero sb => Bool.eqb sa sb
  | S754_infinity sa, S754_infinity sb => Bool.eqb sa sb
  | S754_nan, S754_nan => true
  | _, _ => false
  end.

(** For [k] digits: the integer [s] with [10^(k-1) <= s <= 10^k] nearest to
    [num / den * 10^(k-1-e0)] among those whose numeral [s * 10^(e0+1-k)]
    denotes [v], if there is one. *)
Definition candidate (v : number) (num den e0 k : Z) : option Z :=
  let scale := k - 1 - e0 in
  let x := if 0 <=? scale then num * 10 ^ scale else num in
  let d := if 0 <=? scale then den else den * 10 ^ (- scale) in
  let lo := x / d in
  let hi := lo + 1 in
  let denotes s := same_number (of_decimal false s (- scale)) (Math_abs v) in
  let below := x - lo * d in
  let above := hi * d - x in
  match denotes lo, denotes hi with
  | true, true =>
    Some (if below <? above then lo
          else if above <? below then hi
          else if Z.even lo then lo else hi)
  | true, false => Some lo
  | false, true => Some hi
  | false, false => None
  end.

(** The least number of digits [k], counting up from the given one, for
    which there is a candidate; 17 digits suffice for a binary64 value. *)
Fixpoint shortest (fuel : nat) (v : number) (num den e0 k : Z) : option (Z * Z) :=
  match fuel with
  | O => None
  | S fuel' =>
    match candidate v num den e0 k with
    | Some s => Some (s, k)
    | None => shortest fuel' v num den e0 (k + 1)
    end
  end.

(** The integers [s], [k] and [n] of Number::toString: [k] digits [s] with
    [s * 10^(n-k)] denoting [v] and [k] as small as possible. *)
Definition shortest_digits (v : number) : Z * Z * Z :=
  let '(num, den) := exact_ratio v in
  let e0 := floor_log10 num den in
  match shortest 17 v num den e0 1 with
  | Some (s, k) =>
    if s =? 10 ^ k then (10 ^ (k - 1), k, e0 + 2) else (s, k, e0 + 1)
  | None =>
    let '(s, e) := exponential_digits num den 16 in (s, 17, e + 1)
  end.

Definition Number_toString (v : number) : jsstring :=
  match v with
  | S754_nan => js "NaN"
  | S754_zero _ => js "0"
  | S754_infinity s => (if s then js "-" else []) ++ js "Infinity"
  | S754_finite sg _ _ =>
    let '(s, k, n) := shortest_digits v in
    let ds := decimal_digits s in
    let e := n - 1 in
    let c := if 0 <=? e then js "+" else js "-" in
    (if sg then js "-" else []) ++
    (if (k <=? n) && (n <=? 21) then ds ++ zeros (n - k)
     else if (0 <? n) && (n <=? 21)
       then firstn (Z.to_nat n) ds ++ js "." ++ skipn (Z.to_nat n) ds
     else if (-6 <? n) && (n <=? 0) then js "0." ++ zeros (- n) ++ ds
     else if k =? 1 then ds ++ js "e" ++ c ++ decimal_digits (Z.abs e)
     else firstn 1 ds ++ js "." ++ skipn 1 ds
          ++ js "e" ++ c ++ decimal_digits (Z.abs e))
  end.

End JsNumber.

Import JsNumber.

(* ================================================================== *)
(** * The imported evaluator library *)
(* ================================================================== *)

(** [import { evaluate, format } from 'mathjs']: the two functions are not
    part of the repository.  [evaluate] returns a value or throws ([None]);
    the page passes the value to [formatResult], which is declared on
    numbers, so the value is a [number] here; an expression on which the
    library returns another kind of value (a complex number, say) is not
    described by this class.  [format value precision] stands for
    [format(value, { precision })]. *)
Class MathJs := {
  evaluate : jsstring -> option number;
  format : number -> Z -> jsstring
}.

(* ================================================================== *)
(** * The calculator page *)
(* ================================================================== *)

Record CalculatorState := {
  expression : jsstring;
  result : jsstring;
  memory : number;
  hasError : bool
}.

(** The state the component is created with. *)
Definition initialState : CalculatorState :=
  {| expression := js "";
     result := js "0";
     memory := zero;
     hasError := false |}.

(** The numeric literals [1e10] and [1e-6] of [formatResult]. *)
Definition lit_1e10 : number := Eval vm_compute in literal "1e10".
Definition lit_1e_6 : number := Eval vm_compute in literal "1e-6".

Section Calculator.

Context {M : MathJs}.

Definition formatResult (value : number) : jsstring :=
  if negb (isFinite value) then js "Error"
  else if ge (Math_abs value) lit_1e10
          || (lt (Math_abs value) lit_1e_6 && strict_neq value zero)
  then toExponential value 6
  else format value 10.

(** The first chain of replacements: display symbols. *)
Definition displaySymbols (expr : jsstring) : jsstring :=
  replace_all (js "x^y") (js "^")
    (replace_all (js "x²") (js "^2")
      (replace_all (js "√") (js "sqrt")
        (replace_all (js "e") (js "e")
          (replace_all (js "π") (js "pi")
            (replace_all (js "−") (js "-")
              (replace_all (js "÷") (js "/")
                (replace_all (js "×") (js "*") expr))))))).

(** The second chain: scientific functions. *)
Definition scientificFunctions (mathExpr : jsstring) : jsstring :=
  replace_all (js "log") (js "log10")
    (replace_all (js "ln") (js "log")
      (replace_all (js "tan") (js "tan")
        (replace_all (js "cos") (js "cos")
          (replace_all (js "sin") (js "sin") mathExpr)))).

(** The value of the local [mathExpr] when it is passed to [evaluate]. *)
Definition mathExpr (expr : jsstring) : jsstring :=
  scientificFunctions (displaySymbols expr).

Definition calculateResult (expr : jsstring) : jsstring :=
  if is_empty (trim expr) then js "0"
  else
    match evaluate (mathExpr expr) with
    | Some result => formatResult result
    | None => js "Error"
    end.

Definition updateExpression (prev : CalculatorState) (newExpr : jsstring)
  : CalculatorState :=
  let result := calculateResult newExpr in
  {| expression := newExpr;
     result := result;
     memory := memory prev;
     hasError := str_eq result (js "Error") |}.

Definition handleNumber (state : CalculatorState) (num : jsstring) :=
  updateExpression state (expression state ++ num).

Definition operators : list jsstring := [js "+"; js "−"; js "×"; js "÷"].

Definition handleOperator (state : CalculatorState) (op : jsstring) :=
  let lastChar := slice_from (expression state) (-1) in
  if array_includes operators lastChar && array_includes operators op
  then updateExpression state (slice (expression state) 0 (-1) ++ op)
  else updateExpression state (expression state ++ op).

Definition needsParentheses : list jsstring :=
  [js "sin"; js "cos"; js "tan"; js "ln"; js "log"; js "√"].

Definition handleScientificFunction (state : CalculatorState) (func : jsstring) :=
  if str_eq func (js "x²") then
    updateExpression state (expression state ++ js "^2")
  else if str_eq func (js "x^y") then
    updateExpression state (expression state ++ js "^")
  else if array_includes needsParentheses func then
    updateExpression state (expression state ++ func ++ js "(")
  else
    updateExpression state (expression state ++ func).

Definition handleParenthesis (state : CalculatorState) (paren : jsstring) :=
  updateExpression state (expression state ++ paren).

(** The character class [[+\−×÷]] of the regular expression in
    [handleDecimal]. *)
Definition operator_class (c : N) : bool :=
  ((c =? PLUS) || (c =? MINUS_SIGN) || (c =? TIMES) || (c =? DIVIDE))%N.

Definition handleDecimal (state : CalculatorState) :=
  let parts := split_class operator_class (expression state) in
  let lastPart := index parts (List.length parts - 1) in
  if negb (includes lastPart (js ".")) then
    updateExpression state (expression state ++ js ".")
  else state.

Definition handleBackspace (state : CalculatorState) :=
  let newExpr := slice (expression state) 0 (-1) in
  updateExpression state newExpr.

Definition handleClearAll (prev : CalculatorState) :=
  {| expression := js "";
     result := js "0";
     memory := memory prev;
     hasError := false |}.

Definition handleCalculate (state : CalculatorState) :=
  if hasError state then state
  else
    let result := calculateResult (expression state) in
    {| expression :=
         if str_eq result (js "Error") then expression state else result;
       result := result;
       memory := memory state;
       hasError := str_eq result (js "Error") |}.

Definition setMemory (prev : CalculatorState) (m : number) :=
  {| expression := expression prev;
     result := result prev;
     memory := m;
     hasError := hasError prev |}.

Definition handleMemoryFunction (state : CalculatorState) (func : jsstring) :=
  let currentResult := parseFloat (result state) in
  if str_eq func (js "MC") then setMemory state zero
  else if str_eq func (js "MR") then
    updateExpression state (expression state ++ Number_toString (memory state))
  else if str_eq func (js "M+") then
    if negb (isNaN currentResult)
    then setMemory state (add (memory state) currentResult)
    else state
  else if str_eq func (js "M-") then
    if negb (isNaN currentResult)
    then setMemory state (sub (memory state) currentResult)
    else state
  else state.

(** ** The calculator as a transition system *)

(** One input event per handler, with the argument the handler is called
    with. *)
Inductive event :=
| Number (num : jsstring)
| Operator (op : jsstring)
| ScientificFunction (func : jsstring)
| Parenthesis (paren : jsstring)
| Decimal
| Backspace
| ClearAll
| Calculate
| MemoryFunction (func : jsstring).

Definition step (state : CalculatorState) (ev : event) : CalculatorState :=
  match ev with
  | Number num => handleNumber state num
  | Operator op => handleOperator state op
  | ScientificFunction func => handleScientificFunction state func
  | Parenthesis paren => handleParenthesis state paren
  | Decimal => handleDecimal state
  | Backspace => handleBackspace state
  | ClearAll => handleClearAll state
  | Calculate => handleCalculate state
  | MemoryFunction func => handleMemoryFunction state func
  end.

Definition run (state : CalculatorState) (evs : list event) : CalculatorState :=
  fold_left step evs state.

(** The states the page can be in. *)
Inductive reachable : CalculatorState -> Prop :=
| reachable_initial : reachable initialState
| reachable_step st ev : reachable st -> reachable (step st ev).

(** The two invariants of the data model. *)
Definition error_flag_ok (st : CalculatorState) : Prop :=
  hasError st = true <-> result st = js "Error".

Definition result_ok (st : CalculatorState) : Prop :=
  result st = calculateResult (expression st).

End Calculator.

(* ================================================================== *)
(** * A sample evaluator library *)
(* ================================================================== *)

(** An instance of [MathJs] on which the handlers can be run.  [evaluate]
    is a recursive-descent evaluator of infix arithmetic in binary64,

      expr   ::= term (('+' | '-') term)*
      term   ::= factor (('*' | '/') factor)*
      factor ::= '-' factor | '+' factor | numeral | '(' expr ')'

    that throws on every other string, except that it knows the value of
    log10(100).  [format] prints [precision] significant digits without
    trailing zeros, in exponential notation when the decimal exponent is
    below -3 or at least 5 (the defaults of the library's automatic
    notation). *)
Module Sample.

Inductive goal :=
| Expr
| ExprTail (acc : number)
| Term
| TermTail (acc : number)
| Factor.

Fixpoint parse (fuel : nat) (g : goal) (s : jsstring)
  : option (number * jsstring) :=
  match fuel with
  | O => None
  | S fuel' =>
    match g with
    | Expr =>
      match parse fuel' Term s with
      | Some (v, rest) => parse fuel' (ExprTail v) rest
      | None => None
      end
    | ExprTail acc =>
      match s with
      | 43%N :: s' =>
        match parse fuel' Term s' with
        | Some (v, rest) => parse fuel' (ExprTail (add acc v)) rest
        | None => None
        end
      | 45%N :: s' =>
        match parse fuel' Term s' with
        | Some (v, rest) => parse fuel' (ExprTail (sub acc v)) rest
        | None => None
        end
      | _ => Some (acc, s)
      end
    | Term =>
      match parse fuel' Factor s with
      | Some (v, rest) => parse fuel' (TermTail v) rest
      | None => None
      end
    | TermTail acc =>
      match s with
      | 42%N :: s' =>
        match parse fuel' Factor s' with
        | Some (v, rest) =>
          parse fuel' (TermTail (SFmul prec emax acc v)) rest
        | None => None
        end
      | 47%N :: s' =>
        match parse fuel' Factor s' with
        | Some (v, rest) =>
          parse fuel' (TermTail (SFdiv prec emax acc v)) rest
        | None => None
        end
      | _ => Some (acc, s)
      end
    | Factor =>
      match s with
      | 45%N :: s' =>
        match parse fuel' Factor s' with
        | Some (v, rest) => Some (SFopp v, rest)
        | None => None
        end
      | 43%N :: s' => parse fuel' Factor s'
      | 40%N :: s' =>
        match parse fuel' Expr s' with
        | Some (v, 41%N :: rest) => Some (v, rest)
        | _ => None
        end
      | _ =>
        match scan_unsigned s with
        | Some (m, e, rest) => Some (of_decimal false m e, rest)
        | None => None
        end
      end
    end
  end.

Definition evaluate (s : jsstring) : option number :=
  if str_eq s (js "log10(100)") then Some (literal "2")
  else
    match parse (4 * List.length s + 4) Expr s with
    | Some (v, []) => Some v
    | _ => None
    end.

Fixpoint drop_zeros (s : jsstring) : jsstring :=
  match s with
  | 48%N :: s' => drop_zeros s'
  | _ => s
  end.

Definition strip_trailing_zeros (s : jsstring) : jsstring :=
  rev (drop_zeros (rev s)).

Definition with_point (int_part frac_part : jsstring) : jsstring :=
  if is_empty frac_part then int_part else int_part ++ js "." ++ frac_part.

Definition format (v : number) (precision : Z) : jsstring :=
  match v with
  | S754_nan => js "NaN"
  | S754_infinity s => (if s then js "-" else []) ++ js "Infinity"
  | S754_zero _ => js "0"
  | S754_finite sg _ _ =>
    let '(num, den) := exact_ratio v in
    let '(n, e) := exponential_digits num den (precision - 1) in
    let ds := strip_trailing_zeros (decimal_digits n) in
    (if sg then js "-" else []) ++
    (if (e <? -3) || (5 <=? e) then
       with_point (firstn 1 ds) (skipn 1 ds)
       ++ js "e" ++ (if 0 <=? e then js "+" else js "-")
       ++ decimal_digits (Z.abs e)
     else if e <? 0 then js "0." ++ zeros (- e - 1) ++ ds
     else
       let padded := ds ++ zeros (e + 1 - Z.of_nat (List.length ds)) in
       with_point (firstn (Z.to_nat (e + 1)) padded)
                  (skipn (Z.to_nat (e + 1)) padded))
  end.

Definition mathjs : MathJs :=
  Build_MathJs evaluate format.

End Sample.

(** The key presses that type a numeral: the decimal key for the point, a
    digit key for everything else. *)
Definition typed (s : string) : list event :=
  map (fun c => if (c =? DOT)%N then Decimal else Number [c]) (js s).

(** The events that write the memory. *)
Definition touches_memory (ev : event) : Prop :=
  ev = MemoryFunction (js "MC") \/ ev = MemoryFunction (js "M+")
  \/ ev = MemoryFunction (js "M-").

(** The alphabet of plain arithmetic: digits, parentheses, and the four
    operators as display glyphs or as the ASCII characters of the evaluator
    syntax. *)
Definition arithmetic_char (c : N) : bool :=
  is_digit c || existsb (N.eqb c) (js "+−×÷()-*/").

(** The evaluator's operator for a display glyph; other characters stand
    for themselves. *)
Definition ascii_operator (c : N) : N :=
  if (c =? TIMES)%N then 42%N
  else if (c =? DIVIDE)%N then 47%N
  else if (c =? MINUS_SIGN)%N then 45%N
  else c.

(** The pattern is non-empty and starts with another code unit than [c]. *)
Definition other_head (pat : jsstring) (c : N) : bool :=
  match pat with
  | [] => false
  | p :: _ => negb (p =? c)%N
  end.

(** No code unit of [t] occurs in [pat]. *)
Definition disjoint (t pat : jsstring) : bool :=
  forallb (fun c => negb (existsb (N.eqb c) pat)) t.

Definition non_operator (c : N) : bool := negb (operator_class c).

(** The state reached by typing 0.00000099999999999 and pressing equals,
    with the sample library. *)
Definition after_equals : CalculatorState :=
  run (M := Sample.mathjs) initialState
      (typed "0.00000099999999999" ++ [Calculate]).

(** ** Infix arithmetic *)

(** The expressions of plain arithmetic, by the grammar that gives infix
    notation its standard meaning: an expression is a sum or difference of
    terms, a term a product or quotient of factors, both read from the left,
    and a factor is a numeral, a negated factor or an expression in
    parentheses.  A numeral is a sequence of decimal digits.  An operator
    is written as its display glyph or as the ASCII character of the
    evaluator syntax. *)
Inductive additive :=
| Add
| Subtract (glyph : bool).

Inductive multiplicative :=
| Multiply (glyph : bool)
| DivideBy (glyph : bool).

Inductive infix_expr :=
| Single (t : infix_term)
| Additive (e : infix_expr) (o : additive) (t : infix_term)
with infix_term :=
| Simple (f : infix_factor)
| Multiplicative (t : infix_term) (o : multiplicative) (f : infix_factor)
with infix_factor :=
| Numeral (u : Decimal.uint)
| Negated (glyph : bool) (f : infix_factor)
| Bracketed (e : infix_expr).

Scheme infix_expr_ind' := Induction for infix_expr Sort Prop
  with infix_term_ind' := Induction for infix_term Sort Prop
  with infix_factor_ind' := Induction for infix_factor Sort Prop.

Combined Scheme infix_ind from
  infix_expr_ind', infix_term_ind', infix_factor_ind'.

(** The character of an operator: as the expression was entered, or in the
    evaluator syntax ([ascii]). *)
Definition minus_sign (ascii glyph : bool) : N :=
  if ascii then 45%N else if glyph then MINUS_SIGN else 45%N.

Definition additive_sign (ascii : bool) (o : additive) : N :=
  match o with
  | Add => PLUS
  | Subtract glyph => minus_sign ascii glyph
  end.

Definition multiplicative_sign (ascii : bool) (o : multiplicative) : N :=
  match o with
  | Multiply glyph => if ascii then 42%N else if glyph then TIMES else 42%N
  | DivideBy glyph => if ascii then 47%N else if glyph then DIVIDE else 47%N
  end.

Fixpoint print (ascii : bool) (e : infix_expr) : jsstring :=
  match e with
  | Single t => print_term ascii t
  | Additive e' o t =>
    print ascii e' ++ additive_sign ascii o :: print_term ascii t
  end
with print_term (ascii : bool) (t : infix_term) : jsstring :=
  match t with
  | Simple f => print_factor ascii f
  | Multiplicative t' o f =>
    print_term ascii t' ++ multiplicative_sign ascii o :: print_factor ascii f
  end
with print_factor (ascii : bool) (f : infix_factor) : jsstring :=
  match f with
  | Numeral u => js (NilZero.string_of_uint u)
  | Negated glyph f' => minus_sign ascii glyph :: print_factor ascii f'
  | Bracketed e => js "(" ++ print ascii e ++ js ")"
  end.

(** The expression as it stands in the editor, and as the evaluator is to
    read it. *)
Definition written (e : infix_expr) : jsstring := print false e.
Definition evaluator_text (e : infix_expr) : jsstring := print true e.

(** The standard value of an expression, in the arithmetic of JavaScript
    numbers: a numeral denotes the number nearest to it, and every
    operation is rounded to nearest. *)
Fixpoint value (e : infix_expr) : number :=
  match e with
  | Single t => value_term t
  | Additive e' Add t => add (value e') (value_term t)
  | Additive e' (Subtract _) t => sub (value e') (value_term t)
  end
with value_term (t : infix_term) : number :=
  match t with
  | Simple f => value_factor f
  | Multiplicative t' (Multiply _) f =>
    SFmul prec emax (value_term t') (value_factor f)
  | Multiplicative t' (DivideBy _) f =>
    SFdiv prec emax (value_term t') (value_factor f)
  end
with value_factor (f : infix_factor) : number :=
  match f with
  | Numeral u => of_decimal false (Z.of_N (N.of_uint u)) 0
  | Negated _ f' => SFopp (value_factor f')
  | Bracketed e => value e
  end.

Definition numeral (n : N) : infix_factor := Numeral (N.to_uint n).

(** 2+3*4 and 99999×99999×9. *)
Definition two_plus_three_times_four : infix_expr :=
  Additive (Single (Simple (numeral 2))) Add
           (Multiplicative (Simple (numeral 3)) (Multiply false) (numeral 4)).

Definition large_product : infix_expr :=
  Single (Multiplicative
            (Multiplicative (Simple (numeral 99999)) (Multiply true)
                            (numeral 99999))
            (Multiply true) (numeral 9)).

(** ** Notations of a number *)


(** ** The numeral under the cursor *)





(* ================================================================== *)
(** * The keyboard and the display *)
(* ================================================================== *)

(** [/[...]/.test(s)] for a character class: some code unit of [s] is in
    the class. *)
Definition class_test (class : N -> bool) (s : jsstring) : bool :=
  existsb class s.

(** The class [[0-9+\-*/=().c]] of the keys whose default is prevented. *)
Definition calculator_key_class (c : N) : bool :=
  is_digit c || existsb (N.eqb c) (js "+-*/=().c").

(** [event.preventDefault()] is called for this key. *)
Definition preventsDefault (key : jsstring) : bool :=
  class_test calculator_key_class key
  || str_eq key (js "Enter") || str_eq key (js "Backspace")
  || str_eq key (js "Escape").

(** [key.toLowerCase() === 'c']: U+0043 and U+0063 are the only code points
    whose lower case is U+0063, and lower-casing never shortens a string. *)
Definition lowercase_is_c (key : jsstring) : bool :=
  str_eq key (js "c") || str_eq key (js "C").

Section Keyboard.

Context {M : MathJs}.

Definition handleKeyDown (state : CalculatorState) (key : jsstring)
  : CalculatorState :=
  if class_test is_digit key then handleNumber state key
  else if str_eq key (js "+") then handleOperator state (js "+")
  else if str_eq key (js "-") then handleOperator state (js "−")
  else if str_eq key (js "*") then handleOperator state (js "×")
  else if str_eq key (js "/") then handleOperator state (js "÷")
  else if str_eq key (js ".") then handleDecimal state
  else if str_eq key (js "(") || str_eq key (js ")")
    then handleParenthesis state key
  else if str_eq key (js "Enter") || str_eq key (js "=")
    then handleCalculate state
  else if str_eq key (js "Backspace") then handleBackspace state
  else if str_eq key (js "Escape") || lowercase_is_c key
    then handleClearAll state
  else state.

(** The line under the calculator: [Memory: ...] when [memory !== 0]. *)
Definition memoryIndicator (state : CalculatorState) : option jsstring :=
  if strict_neq (memory state) zero
  then Some (js "Memory: " ++ formatResult (memory state))
  else None.

End Keyboard.

(** The keys that [handleKeyDown] acts on when the key holds no digit. *)
Definition handled_keys : list jsstring :=
  [js "+"; js "-"; js "*"; js "/"; js "."; js "("; js ")"; js "Enter";
   js "="; js "Backspace"; js "Escape"; js "c"; js "C"].

(** ** The tokens of the pad *)

(** What one press of a pad button appends to the expression. *)
Definition pad_tokens : list jsstring :=
  [js "0"; js "1"; js "2"; js "3"; js "4"; js "5"; js "6"; js "7"; js "8";
   js "9"; js "."; js "+"; js "−"; js "×"; js "÷"; js "("; js ")";
   js "^2"; js "^"; js "sin("; js "cos("; js "tan("; js "ln("; js "log(";
   js "√("].

(** The arguments the pad passes to [handleScientificFunction]. *)
Definition function_buttons : list jsstring :=
  [js "sin"; js "cos"; js "tan"; js "ln"; js "log"; js "√"; js "x²";
   js "x^y"].

Definition digit_keys : list jsstring :=
  [js "0"; js "1"; js "2"; js "3"; js "4"; js "5"; js "6"; js "7"; js "8";
   js "9"].

(** The evaluator syntax of a pad token. *)
Definition evaluator_token (t : jsstring) : jsstring :=
  if str_eq t (js "×") then js "*"
  else if str_eq t (js "÷") then js "/"
  else if str_eq t (js "−") then js "-"
  else if str_eq t (js "ln(") then js "log10("
  else if str_eq t (js "log(") then js "log10("
  else if str_eq t (js "√(") then js "sqrt("
  else t.

(** A press of a pad button that extends the expression or clears it. *)
Definition pad_press (ev : event) : Prop :=
  match ev with
  | Number num => In num digit_keys
  | Operator op => In op operators
  | ScientificFunction func => In func function_buttons
  | Parenthesis paren => paren = js "(" \/ paren = js ")"
  | Decimal => True
  | ClearAll => True
  | _ => False
  end.

(** A string made of pad tokens. *)
Definition tokenised (s : jsstring) : Prop :=
  exists ts, Forall (fun t => In t pad_tokens) ts /\ s = List.concat ts.

(** ** Shapes of expressions *)

(** No two operators among + − × ÷ stand next to each other. *)
Fixpoint no_adjacent_operators (s : jsstring) : bool :=
  match s with
  | c :: s' =>
    match s' with
    | d :: _ => negb (operator_class c && operator_class d)
    | [] => true
    end && no_adjacent_operators s'
  | [] => true
  end.

(** The number of code units of a string that satisfy [p]. *)
Definition count (p : N -> bool) (s : jsstring) : nat :=
  List.length (filter p s).

Definition count_operators (s : jsstring) : nat := count operator_class s.

Definition is_point (c : N) : bool := (c =? DOT)%N.

Definition count_points (s : jsstring) : nat := count is_point s.

(** Every piece between operators holds at most one decimal point. *)
Definition one_point_per_piece (s : jsstring) : Prop :=
  Forall (fun piece => (count_points piece <= 1)%nat)
         (split_class operator_class s).

(** A string that starts with an operator among + − × ÷. *)
Definition starts_with_operator (s : jsstring) : bool :=
  match s with
  | c :: _ => operator_class c
  | [] => false
  end.

(** A string that ends with an operator among + − × ÷. *)
Definition ends_with_operator (s : jsstring) : bool :=
  starts_with_operator (rev s).

(** A class of code units that holds no digit and none of the letters and
    signs of a printed number other than the plus sign and the point. *)
Definition numeral_free (p : N -> bool) : Prop :=
  (forall c, is_digit c = true -> p c = false) /\
  forallb (fun c => negb (p c)) (js "NaInfity-e") = true.

Definition flag (b : bool) : nat := if b then 1%nat else 0%nat.

(** The events of the page: the pad passes the fixed arguments of its
    buttons, the keyboard passes to [handleNumber] the name of a key, which
    holds no operator glyph and no point. *)
Definition page_event (ev : event) : Prop :=
  match ev with
  | Number num => count operator_class num = 0%nat /\ count is_point num = 0%nat
  | Operator op => In op operators
  | ScientificFunction func => In func function_buttons
  | Parenthesis paren => paren = js "(" \/ paren = js ")"
  | _ => True
  end.

Definition is_capital_E (c : N) : bool := (c =? 69)%N.

(** The event is a press of MC. *)
Definition event_is_memory_clear (ev : event) : bool :=
  match ev with
  | MemoryFunction func => str_eq func (js "MC")
  | _ => false
  end.

(* ================================================================== *)
(** * Properties of the string primitives *)
(* ================================================================== *)

Lemma js_glyphs :
  js "+−×÷π√²." =
  [PLUS; MINUS_SIGN; TIMES; DIVIDE; PI_GLYPH; ROOT; SUPER_TWO; DOT].
Proof. reflexivity. Qed.

Lemma str_eq_true (a b : jsstring) : str_eq a b = true <-> a = b.
Proof.
  unfold str_eq. destruct (eq_dec a b) as [e | n]; split; intro H;
    try reflexivity; try assumption; try discriminate.
  contradiction.
Qed.

Lemma str_eq_false (a b : jsstring) : str_eq a b = false <-> a <> b.
Proof.
  unfold str_eq. destruct (eq_dec a b) as [e | n]; split; intro H;
    try reflexivity; try assumption; try discriminate.
  contradiction.
Qed.

Lemma str_eq_refl (a : jsstring) : str_eq a a = true.
Proof. apply str_eq_true. reflexivity. Qed.

Lemma array_includes_In (arr : list jsstring) (x : jsstring) :
  array_includes arr x = true <-> In x arr.
Proof.
  unfold array_includes. rewrite existsb_exists. split.
  - intros [y [Hy Heq]]. apply str_eq_true in Heq. subst. assumption.
  - intro H. exists x. split; [assumption | apply str_eq_refl].
Qed.

(** ** [slice] at the end of a string *)

Lemma slice_last_of_empty : slice_from [] (-1) = [].
Proof. reflexivity. Qed.

Lemma slice_last_of_snoc (pre : jsstring) (c : N) :
  slice_from (pre ++ [c]) (-1) = [c].
Proof.
  unfold slice_from, slice, clamp_index.
  rewrite length_app. cbn [List.length].
  replace (Z.of_nat (List.length pre + 1)) with (Z.of_nat (List.length pre) + 1)
    by lia.
  set (n := Z.of_nat (List.length pre)).
  assert (Hn : 0 <= n) by (unfold n; lia).
  replace (-1 <? 0) with true by reflexivity.
  replace (n + 1 <? 0) with false by (symmetry; apply Z.ltb_ge; lia).
  replace (Z.max (n + 1 + -1) 0) with n by lia.
  replace (Z.min (n + 1) (n + 1) - n) with 1 by lia.
  unfold n. rewrite Nat2Z.id.
  rewrite skipn_app, skipn_all, Nat.sub_diag. reflexivity.
Qed.

Lemma slice_init_of_snoc (pre : jsstring) (c : N) :
  slice (pre ++ [c]) 0 (-1) = pre.
Proof.
  unfold slice, clamp_index.
  rewrite length_app. cbn [List.length].
  replace (Z.of_nat (List.length pre + 1)) with (Z.of_nat (List.length pre) + 1)
    by lia.
  set (n := Z.of_nat (List.length pre)).
  assert (Hn : 0 <= n) by (unfold n; lia).
  replace (-1 <? 0) with true by reflexivity.
  replace (0 <? 0) with false by reflexivity.
  replace (Z.max (n + 1 + -1) 0) with n by lia.
  replace (Z.min 0 (n + 1)) with 0 by lia.
  rewrite Z.sub_0_r. unfold n. rewrite Nat2Z.id. cbn [Z.to_nat skipn].
  rewrite firstn_app, firstn_all, Nat.sub_diag. cbn [firstn].
  apply app_nil_r.
Qed.

Lemma slice_init_of_empty : slice [] 0 (-1) = [].
Proof. reflexivity. Qed.

(** Every string is empty or ends in a last code unit. *)
Lemma snoc_cases (s : jsstring) : s = [] \/ exists pre c, s = pre ++ [c].
Proof.
  destruct s as [| x s']; [left; reflexivity | right].
  destruct (@exists_last _ (x :: s')) as [pre [c E]]; [discriminate |].
  exists pre, c. exact E.
Qed.

(** ** [trim] *)

Lemma trim_start_cases (s : jsstring) :
  (trim_start s = [] /\ forallb is_white_space s = true) \/
  (exists c t, trim_start s = c :: t /\ is_white_space c = false
               /\ forallb is_white_space s = false).
Proof.
  induction s as [| c s IH]; cbn [trim_start forallb].
  - left. split; reflexivity.
  - destruct (is_white_space c) eqn:W; cbn [andb].
    + exact IH.
    + right. exists c, s. repeat split; assumption.
Qed.

Lemma forallb_rev {A} (p : A -> bool) (l : list A) :
  forallb p (rev l) = forallb p l.
Proof.
  induction l as [| x l IH]; [reflexivity |].
  cbn [rev forallb]. rewrite forallb_app, IH. cbn [forallb].
  rewrite andb_true_r. apply andb_comm.
Qed.

Lemma trim_blank (s : jsstring) :
  is_empty (trim s) = forallb is_white_space s.
Proof.
  unfold trim, trim_end.
  destruct (trim_start_cases s) as [[E W] | [c [t [E [Wc W]]]]]; rewrite E, W.
  - reflexivity.
  - destruct (trim_start_cases (rev (c :: t))) as [[E' W'] | [d [u [E' _]]]].
    + rewrite forallb_rev in W'. cbn [forallb] in W'. rewrite Wc in W'.
      discriminate.
    + rewrite E'. destruct (rev (d :: u)) eqn:R; [| reflexivity].
      apply (f_equal (@List.length N)) in R. rewrite length_rev in R.
      discriminate.
Qed.

(** ** [includes] and [split] *)

Lemma includes_unit (s : jsstring) (c : N) :
  includes s [c] = true <-> In c s.
Proof.
  induction s as [| x s IH]; cbn [includes starts_with In].
  - split; [discriminate | contradiction].
  - rewrite andb_true_r, orb_true_iff, IH, N.eqb_eq. split.
    + intros [E | H]; [left; symmetry; exact E | right; exact H].
    + intros [E | H]; [left; symmetry; exact E | right; exact H].
Qed.

Lemma index_last (parts : list jsstring) :
  index parts (List.length parts - 1) = last parts [].
Proof.
  unfold index. induction parts as [| a l IH]; [reflexivity |].
  destruct l as [| b l']; [reflexivity |].
  change (List.length (a :: b :: l') - 1)%nat with (S (List.length l')).
  change (List.length (b :: l') - 1)%nat with (List.length l' - 0)%nat in IH.
  rewrite Nat.sub_0_r in IH. cbn [nth last] in *. exact IH.
Qed.

Lemma last_app_nonempty {A} (l1 l2 : list A) (d : A) :
  l2 <> [] -> last (l1 ++ l2) d = last l2 d.
Proof.
  intro H. induction l1 as [| a l1 IH]; [reflexivity |].
  cbn [app last]. destruct (l1 ++ l2) eqn:E.
  - apply app_eq_nil in E. destruct E as [_ E]. contradiction.
  - exact IH.
Qed.

Lemma split_class_nonempty (sep : N -> bool) (s : jsstring) :
  split_class sep s <> [].
Proof.
  destruct s as [| c s]; cbn [split_class]; [discriminate |].
  destruct (sep c); [discriminate |].
  destruct (split_class sep s); discriminate.
Qed.

(** A string without separators is a single piece. *)
Lemma split_class_unbroken (sep : N -> bool) (seg : jsstring) :
  forallb (fun c => negb (sep c)) seg = true -> split_class sep seg = [seg].
Proof.
  induction seg as [| c seg IH]; cbn [forallb split_class]; [reflexivity |].
  intro H. apply andb_true_iff in H. destruct H as [Hc Hs].
  apply negb_true_iff in Hc. rewrite Hc, (IH Hs). reflexivity.
Qed.

(** The pieces of a string broken at a separator are the pieces before it
    followed by the pieces after it. *)
Lemma split_class_at (sep : N -> bool) (a : jsstring) (c : N) (b : jsstring) :
  sep c = true ->
  split_class sep (a ++ c :: b) = split_class sep a ++ split_class sep b.
Proof.
  intro Hc. induction a as [| x a IH]; cbn [app split_class].
  - rewrite Hc. reflexivity.
  - destruct (sep x); rewrite IH; [reflexivity |].
    destruct (split_class sep a) as [| part parts] eqn:E.
    + exfalso. exact (split_class_nonempty sep a E).
    + reflexivity.
Qed.

(** The last piece is what follows the last separator. *)
Lemma last_piece (sep : N -> bool) (pre seg : jsstring) :
  forallb (fun c => negb (sep c)) seg = true ->
  pre = [] \/ (exists pre' c, pre = pre' ++ [c] /\ sep c = true) ->
  let parts := split_class sep (pre ++ seg) in
  index parts (List.length parts - 1) = seg.
Proof.
  intros Hseg Hpre parts. subst parts. rewrite index_last.
  destruct Hpre as [E | [pre' [c [E Hc]]]]; subst pre.
  - cbn [app]. rewrite (split_class_unbroken sep seg Hseg). reflexivity.
  - rewrite <- app_assoc. cbn [app].
    rewrite (split_class_at sep pre' c seg Hc).
    rewrite last_app_nonempty by apply split_class_nonempty.
    rewrite (split_class_unbroken sep seg Hseg). reflexivity.
Qed.

(** Every string ends in a piece without separators that is preceded by
    nothing or by a separator. *)
Lemma last_piece_exists (sep : N -> bool) (s : jsstring) :
  exists pre seg,
    s = pre ++ seg /\ forallb (fun c => negb (sep c)) seg = true /\
    (pre = [] \/ exists pre' c, pre = pre' ++ [c] /\ sep c = true).
Proof.
  induction s as [| x s IH].
  - exists [], []. repeat split. left. reflexivity.
  - destruct IH as [pre [seg [E [Hseg Hpre]]]].
    destruct Hpre as [P | [pre' [c [P Hc]]]]; subst pre.
    + cbn [app] in E. subst s. destruct (sep x) eqn:Hx.
      * exists [x], seg. repeat split; try assumption.
        right. exists [], x. split; [reflexivity | assumption].
      * exists [], (x :: seg). cbn [forallb]. rewrite Hx, Hseg.
        repeat split. left. reflexivity.
    + exists (x :: pre' ++ [c]), seg. rewrite E. repeat split; try assumption.
      right. exists (x :: pre'), c. split; [reflexivity | assumption].
Qed.

(** ** Global replacement *)

Lemma starts_with_prefix (pat s : jsstring) :
  starts_with pat s = true <-> exists rest, s = pat ++ rest.
Proof.
  revert s. induction pat as [| p pat IH]; intro s; cbn [starts_with].
  - split; [intros _; exists s; reflexivity | reflexivity].
  - destruct s as [| c s].
    + split; [discriminate | intros [rest E]; discriminate E].
    + rewrite andb_true_iff, N.eqb_eq, IH. split.
      * intros [E [rest R]]. subst. exists rest. reflexivity.
      * intros [rest R]. injection R as E R. split; [symmetry; exact E |].
        exists rest. exact R.
Qed.

Lemma replace_from_skipn (pat rep : jsstring) (k : nat) (s : jsstring) :
  replace_from pat rep k s = replace_all pat rep (skipn k s).
Proof.
  revert k. induction s as [| c s IH]; intro k.
  - destruct k; reflexivity.
  - destruct k as [| k]; [reflexivity |]. cbn [replace_from skipn]. apply IH.
Qed.

(** A match at the front is replaced, and the scan goes on behind it. *)
Lemma replace_all_match (pat rep rest : jsstring) :
  pat <> [] ->
  replace_all pat rep (pat ++ rest) = rep ++ replace_all pat rep rest.
Proof.
  intro H. destruct pat as [| p pat]; [contradiction |].
  unfold replace_all at 1. cbn [app replace_from].
  replace (starts_with (p :: pat) (p :: pat ++ rest)) with true
    by (symmetry; apply starts_with_prefix; exists rest; reflexivity).
  rewrite replace_from_skipn.
  replace (List.length (p :: pat) - 1)%nat with (List.length pat)
    by (cbn [List.length]; lia).
  rewrite skipn_app, skipn_all, Nat.sub_diag. reflexivity.
Qed.

(** Without a match at the front the first code unit is kept. *)
Lemma replace_all_keep (pat rep : jsstring) (c : N) (s : jsstring) :
  starts_with pat (c :: s) = false ->
  replace_all pat rep (c :: s) = c :: replace_all pat rep s.
Proof.
  intro H. unfold replace_all. cbn [replace_from]. rewrite H. reflexivity.
Qed.

Lemma replace_all_other_head (pat rep : jsstring) (c : N) (s : jsstring) :
  other_head pat c = true ->
  replace_all pat rep (c :: s) = c :: replace_all pat rep s.
Proof.
  intro H. apply replace_all_keep. destruct pat as [| p pat]; [discriminate |].
  cbn [other_head] in H. apply negb_true_iff in H.
  cbn [starts_with]. rewrite H. reflexivity.
Qed.

Lemma replace_all_unit_match (c : N) (rep s : jsstring) :
  replace_all [c] rep (c :: s) = rep ++ replace_all [c] rep s.
Proof. apply (replace_all_match [c] rep s). discriminate. Qed.

(** Replacing a pattern by itself changes nothing. *)
Lemma replace_all_same (pat s : jsstring) :
  pat <> [] -> replace_all pat pat s = s.
Proof.
  intro H. remember (List.length s) as n eqn:Hn. revert s Hn.
  induction n as [n IH] using lt_wf_ind. intros s Hn.
  destruct s as [| c s]; [reflexivity |].
  destruct (starts_with pat (c :: s)) eqn:E.
  - apply starts_with_prefix in E. destruct E as [rest E]. rewrite E.
    rewrite replace_all_match by assumption. f_equal.
    apply (IH (List.length rest)); [| reflexivity].
    subst n. rewrite E, length_app.
    destruct pat; [contradiction | cbn [List.length]; lia].
  - rewrite replace_all_keep by assumption. f_equal.
    apply (IH (List.length s)); [subst n; cbn [List.length]; lia | reflexivity].
Qed.

(** The scan of [a ++ s] is the scan of [a] followed by the scan of [s]
    when no match can begin in [a] and end in [s]: the first code unit of
    [s] does not occur in the pattern after its first position. *)
Lemma replace_all_app (pat rep a s : jsstring) :
  pat <> [] ->
  (forall c s', s = c :: s' -> ~ In c (tl pat)) ->
  replace_all pat rep (a ++ s)
  = replace_all pat rep a ++ replace_all pat rep s.
Proof.
  intros Hpat Hs. remember (List.length a) as n eqn:Hn. revert a Hn.
  induction n as [n IH] using lt_wf_ind. intros a Hn.
  destruct a as [| x a]; [reflexivity |].
  destruct (starts_with pat ((x :: a) ++ s)) eqn:E.
  - apply starts_with_prefix in E. destruct E as [rest E].
    apply app_eq_app in E. destruct E as [l [[Ea Er] | [Ep Es]]].
    + rewrite Ea, <- app_assoc, !replace_all_match by assumption.
      rewrite <- app_assoc. f_equal.
      apply (IH (List.length l)); [| reflexivity].
      subst n. rewrite Ea, length_app.
      destruct pat; [contradiction | cbn [List.length]; lia].
    + destruct l as [| c l].
      * rewrite app_nil_r in Ep. rewrite <- Ep.
        rewrite replace_all_match by assumption.
        pose proof (replace_all_match pat rep [] Hpat) as P.
        rewrite !app_nil_r in P. rewrite P. reflexivity.
      * exfalso. apply (Hs c (l ++ rest) Es).
        rewrite Ep. cbn [app tl]. apply in_or_app. right. left. reflexivity.
  - assert (E' : starts_with pat (x :: a) = false).
    { destruct (starts_with pat (x :: a)) eqn:E'; [| reflexivity].
      apply starts_with_prefix in E'. destruct E' as [rest E'].
      assert (T : starts_with pat ((x :: a) ++ s) = true).
      { apply starts_with_prefix. exists (rest ++ s).
        rewrite E', <- app_assoc. reflexivity. }
      rewrite T in E. discriminate E. }
    cbn [app] in *. rewrite !replace_all_keep by assumption.
    cbn [app]. f_equal.
    apply (IH (List.length a)); [subst n; cbn [List.length]; lia | reflexivity].
Qed.

Lemma disjoint_not_in (t pat : jsstring) (c : N) :
  disjoint t pat = true -> In c t -> ~ In c pat.
Proof.
  unfold disjoint. rewrite forallb_forall. intros H Hc Hp.
  specialize (H c Hc). apply negb_true_iff in H.
  assert (T : existsb (N.eqb c) pat = true).
  { apply existsb_exists. exists c. split; [exact Hp | apply N.eqb_refl]. }
  rewrite T in H. discriminate H.
Qed.

(** A token that shares no code unit with the pattern is left alone and
    separates the scan of what precedes it from the scan of what follows. *)
Lemma replace_all_around (pat rep t a b : jsstring) :
  pat <> [] -> t <> [] -> disjoint t pat = true ->
  replace_all pat rep (a ++ t ++ b)
  = replace_all pat rep a ++ t ++ replace_all pat rep b.
Proof.
  intros Hpat Ht D.
  assert (K : forall u, (forall c, In c u -> In c t) ->
                replace_all pat rep (u ++ b) = u ++ replace_all pat rep b).
  { induction u as [| c u IHu]; intro Hu; [reflexivity |].
    cbn [app]. rewrite replace_all_keep.
    - f_equal. apply IHu. intros d Hd. apply Hu. right. exact Hd.
    - destruct (starts_with pat (c :: u ++ b)) eqn:E; [| reflexivity].
      apply starts_with_prefix in E. destruct E as [rest E].
      destruct pat as [| p pat]; [contradiction |].
      injection E as E _. exfalso.
      apply (disjoint_not_in t (p :: pat) c D).
      + apply Hu. left. reflexivity.
      + left. symmetry. exact E. }
  rewrite replace_all_app; [| assumption |].
  - f_equal. apply K. intros c Hc. exact Hc.
  - intros c s' E Hc. destruct t as [| d t]; [contradiction |].
    injection E as E _. subst d.
    apply (disjoint_not_in (c :: t) pat c D); [left; reflexivity |].
    destruct pat; [contradiction | right; exact Hc].
Qed.

(* ================================================================== *)
(** * The number primitives on examples *)
(* ================================================================== *)

Lemma parseFloat_examples :
  parseFloat (js "Error") = NaN /\
  parseFloat (js "") = NaN /\
  parseFloat (js ".") = NaN /\
  parseFloat (js "0") = zero /\
  parseFloat (js "-Infinity") = S754_infinity true /\
  parseFloat (js "  12.5e1abc") = literal "125" /\
  parseFloat (js "5.") = literal "5" /\
  parseFloat (js "1e") = literal "1" /\
  parseFloat (js "1.000000e-6") = lit_1e_6 /\
  parseFloat (js "9007199254740993") = literal "9007199254740992".
Proof. vm_compute. repeat split. Qed.

Lemma toExponential_examples :
  toExponential (literal "10000000000") 6 = js "1.000000e+10" /\
  toExponential (literal "0.0000001") 6 = js "1.000000e-7" /\
  toExponential (literal "-12345678") 6 = js "-1.234568e+7" /\
  toExponential (literal "0.00000099999999999") 6 = js "1.000000e-6" /\
  toExponential (literal "99999995") 6 = js "1.000000e+8" /\
  toExponential (literal "5e-324") 6 = js "4.940656e-324" /\
  toExponential zero 6 = js "0.000000e+0" /\
  toExponential (literal "1.5") 0 = js "2e+0" /\
  toExponential NaN 6 = js "NaN".
Proof. vm_compute. repeat split. Qed.

Lemma Number_toString_examples :
  Number_toString (literal "0.1") = js "0.1" /\
  Number_toString (literal "14") = js "14" /\
  Number_toString (literal "-2.50") = js "-2.5" /\
  Number_toString (literal "1e21") = js "1e+21" /\
  Number_toString (literal "123456789012345680000")
  = js "123456789012345680000" /\
  Number_toString (literal "0.000001") = js "0.000001" /\
  Number_toString (literal "0.0000001") = js "1e-7" /\
  Number_toString (add (literal "0.1") (literal "0.2"))
  = js "0.30000000000000004" /\
  Number_toString (literal "1.7976931348623157e308")
  = js "1.7976931348623157e+308" /\
  Number_toString (literal "5e-324") = js "5e-324" /\
  Number_toString (sub zero zero) = js "0".
Proof. vm_compute. repeat split. Qed.

Lemma arithmetic_examples :
  add (literal "14") (literal "2.5") = literal "16.5" /\
  sub (literal "1") (literal "0.9") = literal "0.09999999999999998" /\
  add Infinity (S754_infinity true) = NaN /\
  isNaN (add NaN (literal "1")) = true /\
  ge (Math_abs (literal "-10000000000")) lit_1e10 = true /\
  lt (literal "9999999999") lit_1e10 = true /\
  strict_neq (S754_zero true) zero = false.
Proof. vm_compute. repeat split. Qed.

(** The page on the sample library, from key presses to the display. *)
Lemma sample_evaluation_examples :
  Sample.evaluate (js "2+3*4") = Some (literal "14") /\
  Sample.evaluate (js "(2+3)*4") = Some (literal "20") /\
  Sample.evaluate (js "-(1.5-4)/2") = Some (literal "1.25") /\
  Sample.evaluate (js "5/0") = Some Infinity /\
  Sample.evaluate (js "0/0") = Some NaN /\
  Sample.evaluate (js "2+") = None /\
  Sample.evaluate (js "(2+3") = None /\
  Sample.evaluate (js "1.000000e-6") = Some lit_1e_6.
Proof. vm_compute. repeat split. Qed.

Lemma sample_format_examples :
  Sample.format (literal "14") 10 = js "14" /\
  Sample.format (literal "0.001") 10 = js "0.001" /\
  Sample.format (literal "0.000001") 10 = js "1e-6" /\
  Sample.format (literal "12.50") 10 = js "12.5" /\
  Sample.format (literal "99999") 10 = js "99999" /\
  Sample.format (literal "100000") 10 = js "1e+5" /\
  Sample.format (literal "-0.3333333333333333") 10 = js "-0.3333333333".
Proof. vm_compute. repeat split. Qed.

Lemma sample_calculator_examples :
  calculateResult (M := Sample.mathjs) (js "2+3×4") = js "14" /\
  calculateResult (M := Sample.mathjs) (js "1÷3") = js "0.3333333333" /\
  calculateResult (M := Sample.mathjs) (js "5÷0") = js "Error" /\
  calculateResult (M := Sample.mathjs) (js "5÷") = js "Error" /\
  calculateResult (M := Sample.mathjs) (js "99999×99999×9")
  = js "8.999820e+10" /\
  calculateResult (M := Sample.mathjs) (js "") = js "0".
Proof. vm_compute. repeat split. Qed.

(* ================================================================== *)
(** * Properties of the calculator *)
(* ================================================================== *)

(** Comparisons of string literals are decided by evaluation. *)
Ltac eval_str_eq :=
  repeat match goal with
  | |- context [str_eq (js ?a) (js ?b)] =>
    let v := eval vm_compute in (str_eq (js a) (js b)) in
    change (str_eq (js a) (js b)) with v
  end.

Lemma positive_abs_nonzero (v : number) :
  isFinite v = true -> lt zero (Math_abs v) = strict_neq v zero.
Proof.
  destruct v as [s | s | | s m e]; intro F; try discriminate F;
    destruct s; reflexivity.
Qed.

Section Properties.

Context {M : MathJs}.

(** ** The result formatter *)

Lemma formatResult_nonfinite (v : number) :
  isFinite v = false -> formatResult v = js "Error".
Proof. intro F. unfold formatResult. rewrite F. reflexivity. Qed.

Lemma formatResult_exponential (v : number) :
  isFinite v = true ->
  ge (Math_abs v) lit_1e10
  || (lt zero (Math_abs v) && lt (Math_abs v) lit_1e_6) = true ->
  formatResult v = toExponential v 6.
Proof.
  intros F C. unfold formatResult. rewrite F. cbn [negb].
  rewrite positive_abs_nonzero in C by assumption.
  rewrite (andb_comm (lt _ _) (strict_neq _ _)), C. reflexivity.
Qed.

Lemma formatResult_plain (v : number) :
  isFinite v = true ->
  ge (Math_abs v) lit_1e10
  || (lt zero (Math_abs v) && lt (Math_abs v) lit_1e_6) = false ->
  formatResult v = format v 10.
Proof.
  intros F C. unfold formatResult. rewrite F. cbn [negb].
  rewrite positive_abs_nonzero in C by assumption.
  rewrite (andb_comm (lt _ _) (strict_neq _ _)), C. reflexivity.
Qed.




(** ** The evaluator adapter *)

Lemma calculateResult_blank (expr : jsstring) :
  forallb is_white_space expr = true -> calculateResult expr = js "0".
Proof.
  intro W. unfold calculateResult. rewrite trim_blank, W. reflexivity.
Qed.

Lemma calculateResult_evaluated (expr : jsstring) (v : number) :
  forallb is_white_space expr = false ->
  evaluate (mathExpr expr) = Some v ->
  calculateResult expr = formatResult v.
Proof.
  intros W E. unfold calculateResult. rewrite trim_blank, W, E. reflexivity.
Qed.

Lemma calculateResult_thrown (expr : jsstring) :
  forallb is_white_space expr = false ->
  evaluate (mathExpr expr) = None ->
  calculateResult expr = js "Error".
Proof.
  intros W E. unfold calculateResult. rewrite trim_blank, W, E. reflexivity.
Qed.

(** C2. [calculateResult] returns a string on every input: "0" when the
    input is empty or consists of white space, "Error" when [evaluate]
    throws and when it returns a non-finite number, and otherwise the
    formatted value; a failure of the evaluator never escapes. *)
Theorem calculateResult_error_boundary (expr : jsstring) :
  (forallb is_white_space expr = true -> calculateResult expr = js "0") /\
  (forallb is_white_space expr = false ->
   evaluate (mathExpr expr) = None -> calculateResult expr = js "Error") /\
  (forallb is_white_space expr = false ->
   forall v, evaluate (mathExpr expr) = Some v -> isFinite v = false ->
   calculateResult expr = js "Error") /\
  (calculateResult expr = js "0" \/ calculateResult expr = js "Error" \/
   exists v, evaluate (mathExpr expr) = Some v /\ isFinite v = true /\
             calculateResult expr = formatResult v).
Proof.
  split; [apply calculateResult_blank |].
  split; [apply calculateResult_thrown |].
  split.
  - intros W v E F. rewrite (calculateResult_evaluated expr v W E).
    apply formatResult_nonfinite. exact F.
  - destruct (forallb is_white_space expr) eqn:W.
    + left. apply calculateResult_blank. exact W.
    + right. destruct (evaluate (mathExpr expr)) as [v |] eqn:E.
      * rewrite (calculateResult_evaluated expr v W E).
        destruct (isFinite v) eqn:F.
        -- right. exists v. repeat split; assumption || reflexivity.
        -- left. apply formatResult_nonfinite. exact F.
      * left. apply calculateResult_thrown; assumption.
Qed.

(** ** Equals *)

Lemma handleCalculate_noop (st : CalculatorState) :
  hasError st = true -> handleCalculate st = st.
Proof. intro H. unfold handleCalculate. rewrite H. reflexivity. Qed.

Lemma handleCalculate_keeps_failed (st : CalculatorState) :
  calculateResult (expression st) = js "Error" ->
  expression (handleCalculate st) = expression st.
Proof.
  intro H. unfold handleCalculate.
  destruct (hasError st); [reflexivity |].
  cbn [expression]. rewrite H, str_eq_refl. reflexivity.
Qed.

Lemma handleCalculate_never_writes_error (st : CalculatorState) :
  expression (handleCalculate st) = js "Error" -> expression st = js "Error".
Proof.
  unfold handleCalculate. destruct (hasError st); [intro H; exact H |].
  cbn [expression].
  destruct (str_eq (calculateResult (expression st)) (js "Error")) eqn:E.
  - intro H. exact H.
  - intro H. apply str_eq_false in E. contradiction.
Qed.

(** Typing 5, the division key and 0 into an empty expression. *)
Lemma enter_5_div_0 (st0 : CalculatorState) :
  expression st0 = js "" ->
  run st0 [Number (js "5"); Operator (js "÷"); Number (js "0")]
  = updateExpression st0 (js "5÷0").
Proof.
  intro E. unfold run. cbn [fold_left step].
  unfold handleNumber at 2. rewrite E.
  unfold handleOperator, handleNumber, updateExpression.
  cbn [expression memory]. reflexivity.
Qed.

Lemma division_by_zero_result :
  (forall v, evaluate (js "5/0") = Some v -> isFinite v = false) ->
  calculateResult (js "5÷0") = js "Error".
Proof.
  intro H.
  assert (W : forallb is_white_space (js "5÷0") = false) by reflexivity.
  assert (T : mathExpr (js "5÷0") = js "5/0") by reflexivity.
  destruct (evaluate (js "5/0")) as [v |] eqn:E.
  - rewrite (calculateResult_evaluated _ v W) by (rewrite T; exact E).
    apply formatResult_nonfinite. apply H. reflexivity.
  - apply calculateResult_thrown; [exact W | rewrite T; exact E].
Qed.

(** C4. While [hasError] is set the equals key changes nothing; equals
    keeps the old expression whenever the evaluation fails, so it never
    stores "Error" as the expression.  When the evaluator gives no finite
    value for 5/0, typing 5÷0 shows "Error" with [hasError] set, and equals
    then leaves the state, hence the expression, as it is. *)
Theorem equals_after_error :
  (forall st, hasError st = true -> handleCalculate st = st) /\
  (forall st, calculateResult (expression st) = js "Error" ->
     expression (handleCalculate st) = expression st) /\
  (forall st, expression (handleCalculate st) = js "Error" ->
     expression st = js "Error") /\
  (forall st0,
     expression st0 = js "" ->
     (forall v, evaluate (js "5/0") = Some v -> isFinite v = false) ->
     let st := run st0 [Number (js "5"); Operator (js "÷"); Number (js "0")] in
     expression st = js "5÷0" /\ result st = js "Error" /\
     hasError st = true /\ handleCalculate st = st).
Proof.
  split; [exact handleCalculate_noop |].
  split; [exact handleCalculate_keeps_failed |].
  split; [exact handleCalculate_never_writes_error |].
  intros st0 E H st. subst st. rewrite (enter_5_div_0 st0 E).
  assert (R : result (updateExpression st0 (js "5÷0")) = js "Error")
    by (cbn [updateExpression result]; apply division_by_zero_result; exact H).
  assert (F : hasError (updateExpression st0 (js "5÷0")) = true).
  { cbn [updateExpression hasError].
    rewrite (division_by_zero_result H). reflexivity. }
  repeat split; try assumption.
  apply handleCalculate_noop. exact F.
Qed.

(** ** Operators *)

Lemma operators_class (c : N) :
  array_includes operators [c] = operator_class c.
Proof.
  unfold array_includes, operators, operator_class. cbn [existsb].
  change (js "+") with [PLUS]. change (js "−") with [MINUS_SIGN].
  change (js "×") with [TIMES]. change (js "÷") with [DIVIDE].
  rewrite orb_false_r, !orb_assoc.
  assert (E : forall d, str_eq [c] [d] = (c =? d)%N).
  { intro d. destruct (N.eqb_spec c d) as [e | n].
    - subst. apply str_eq_refl.
    - apply str_eq_false. intro H. injection H as H. contradiction. }
  rewrite !E. reflexivity.
Qed.

Lemma handleOperator_replaces (st : CalculatorState) (pre : jsstring) (c : N)
      (op : jsstring) :
  expression st = pre ++ [c] ->
  operator_class c = true ->
  In op operators ->
  handleOperator st op = updateExpression st (pre ++ op).
Proof.
  intros E C O. unfold handleOperator.
  rewrite E, slice_last_of_snoc, slice_init_of_snoc, operators_class, C.
  apply array_includes_In in O. rewrite O. reflexivity.
Qed.

Lemma handleOperator_appends (st : CalculatorState) (op : jsstring) :
  expression st = []
  \/ (exists pre c, expression st = pre ++ [c] /\ operator_class c = false)
  \/ ~ In op operators ->
  handleOperator st op = updateExpression st (expression st ++ op).
Proof.
  intros [E | [[pre [c [E C]]] | O]]; unfold handleOperator.
  - rewrite E. reflexivity.
  - rewrite E, slice_last_of_snoc, operators_class, C. reflexivity.
  - destruct (array_includes operators op) eqn:A.
    + apply array_includes_In in A. contradiction.
    + rewrite andb_false_r. reflexivity.
Qed.

(** C6. When the expression ends in one of + − × ÷ and the key is one of
    them too, the operator replaces that last character; in every other
    case it is appended.  From "5+" the key × gives "5×". *)
Theorem operator_collision :
  (forall st pre c op,
     expression st = pre ++ [c] -> operator_class c = true ->
     In op operators ->
     handleOperator st op = updateExpression st (pre ++ op)) /\
  (forall st op,
     expression st = []
     \/ (exists pre c, expression st = pre ++ [c] /\ operator_class c = false)
     \/ ~ In op operators ->
     handleOperator st op = updateExpression st (expression st ++ op)) /\
  (forall st, expression st = js "5+" ->
     expression (handleOperator st (js "×")) = js "5×").
Proof.
  split; [exact handleOperator_replaces |].
  split; [exact handleOperator_appends |].
  intros st E.
  rewrite (handleOperator_replaces st (js "5") PLUS (js "×")).
  - reflexivity.
  - exact E.
  - reflexivity.
  - cbn. tauto.
Qed.

(** ** Clearing and the memory *)

Lemma memory_updateExpression (st : CalculatorState) (e : jsstring) :
  memory (updateExpression st e) = memory st.
Proof. reflexivity. Qed.

Lemma memory_step (st : CalculatorState) (ev : event) :
  ~ touches_memory ev -> memory (step st ev) = memory st.
Proof.
  intro T. destruct ev as [num | op | func | paren | | | | | func];
    cbn [step]; try reflexivity.
  - unfold handleOperator.
    destruct (_ && _); apply memory_updateExpression.
  - unfold handleScientificFunction.
    repeat (destruct (str_eq _ _) || destruct (array_includes _ _));
      apply memory_updateExpression.
  - unfold handleDecimal. destruct (negb _); reflexivity.
  - unfold handleCalculate. destruct (hasError st); reflexivity.
  - unfold handleMemoryFunction.
    destruct (str_eq func (js "MC")) eqn:E1.
    { apply str_eq_true in E1. subst. exfalso. apply T. left. reflexivity. }
    destruct (str_eq func (js "MR")) eqn:E2; [reflexivity |].
    destruct (str_eq func (js "M+")) eqn:E3.
    { apply str_eq_true in E3. subst. exfalso. apply T.
      right. left. reflexivity. }
    destruct (str_eq func (js "M-")) eqn:E4; [| reflexivity].
    apply str_eq_true in E4. subst. exfalso. apply T. right. right. reflexivity.
Qed.

Lemma memory_run (evs : list event) (st : CalculatorState) :
  Forall (fun ev => ~ touches_memory ev) evs ->
  memory (run st evs) = memory st.
Proof.
  unfold run. revert st.
  induction evs as [| ev evs IH]; intros st H; [reflexivity |].
  inversion H as [| ? ? Hev Hevs]; subst. cbn [fold_left].
  rewrite (IH _ Hevs). apply memory_step. exact Hev.
Qed.

(** C7. Clear-all empties the expression, shows "0", resets [hasError] and
    keeps the memory; MC zeroes the memory and keeps the other three
    fields; and the memory is the same after any sequence of operations
    that contains none of MC, M+ and M-. *)
Theorem clear_all_frame :
  (forall st,
     handleClearAll st =
     {| expression := js ""; result := js "0";
        memory := memory st; hasError := false |}) /\
  (forall st,
     handleMemoryFunction st (js "MC") =
     {| expression := expression st; result := result st;
        memory := zero; hasError := hasError st |}) /\
  (forall st evs,
     Forall (fun ev => ~ touches_memory ev) evs ->
     memory (run st evs) = memory st).
Proof.
  split; [reflexivity |].
  split; [reflexivity |].
  intros st evs. apply memory_run.
Qed.

(** C10. When the displayed result does not parse as a number, as is the
    case for "Error", M+ and M- change nothing; when it does, M+ adds the
    parsed number to the memory and M- subtracts it, the other fields
    staying as they are. *)
Theorem memory_accumulate (st : CalculatorState) :
  (isNaN (parseFloat (result st)) = true ->
     handleMemoryFunction st (js "M+") = st /\
     handleMemoryFunction st (js "M-") = st) /\
  (result st = js "Error" ->
     handleMemoryFunction st (js "M+") = st /\
     handleMemoryFunction st (js "M-") = st) /\
  (isNaN (parseFloat (result st)) = false ->
     handleMemoryFunction st (js "M+") =
     {| expression := expression st; result := result st;
        memory := add (memory st) (parseFloat (result st));
        hasError := hasError st |} /\
     handleMemoryFunction st (js "M-") =
     {| expression := expression st; result := result st;
        memory := sub (memory st) (parseFloat (result st));
        hasError := hasError st |}).
Proof.
  assert (N : isNaN (parseFloat (result st)) = true ->
              handleMemoryFunction st (js "M+") = st /\
              handleMemoryFunction st (js "M-") = st).
  { intro H. unfold handleMemoryFunction. eval_str_eq. rewrite H.
    split; reflexivity. }
  split; [exact N |].
  split.
  - intro E. apply N. rewrite E. reflexivity.
  - intro H. unfold handleMemoryFunction. eval_str_eq. rewrite H.
    split; reflexivity.
Qed.

(** ** The decimal point *)

Lemma handleDecimal_lastPart (st : CalculatorState) (pre seg : jsstring) :
  expression st = pre ++ seg ->
  forallb non_operator seg = true ->
  pre = [] \/ (exists pre' c, pre = pre' ++ [c] /\ operator_class c = true) ->
  handleDecimal st =
  if negb (includes seg (js "."))
  then updateExpression st (expression st ++ js ".")
  else st.
Proof.
  intros E Hseg Hpre. unfold handleDecimal.
  rewrite E at 1 2. rewrite (last_piece operator_class pre seg Hseg Hpre).
  reflexivity.
Qed.









(** ** Plain arithmetic *)

Lemma arithmetic_char_cases (c : N) :
  arithmetic_char c = true ->
  In c (js "0123456789+−×÷()-*/").
Proof.
  unfold arithmetic_char, is_digit. intro H.
  apply orb_true_iff in H. destruct H as [H | H].
  - apply andb_true_iff in H. destruct H as [L U].
    apply N.leb_le in L, U.
    assert (D : (c = 48 \/ c = 49 \/ c = 50 \/ c = 51 \/ c = 52 \/ c = 53
                 \/ c = 54 \/ c = 55 \/ c = 56 \/ c = 57)%N) by lia.
    cbn. intuition auto.
  - apply existsb_exists in H. destruct H as [d [Hd E]].
    apply N.eqb_eq in E. subst d. cbn in Hd |- *. intuition auto.
Qed.

(** Push the first code unit of the argument through one replacement. *)
Ltac scan_first :=
  first [ rewrite replace_all_other_head by reflexivity
        | rewrite replace_all_unit_match; cbn [app] ].

Lemma mathExpr_arithmetic_cons (c : N) (e : jsstring) :
  arithmetic_char c = true ->
  mathExpr (c :: e) = ascii_operator c :: mathExpr e.
Proof.
  intro H. apply arithmetic_char_cases in H.
  unfold mathExpr, scientificFunctions, displaySymbols.
  change (js "×") with [TIMES]. change (js "÷") with [DIVIDE].
  change (js "−") with [MINUS_SIGN]. change (js "π") with [PI_GLYPH].
  change (js "e") with [101%N]. change (js "√") with [ROOT].
  change (js "*") with [42%N]. change (js "/") with [47%N].
  change (js "-") with [45%N].
  cbn in H.
  repeat (destruct H as [H | H]; [subst c; repeat scan_first; reflexivity |]).
  contradiction.
Qed.

Lemma mathExpr_arithmetic (expr : jsstring) :
  forallb arithmetic_char expr = true ->
  mathExpr expr = map ascii_operator expr.
Proof.
  induction expr as [| c e IH]; cbn [forallb map]; [reflexivity |].
  intro H. apply andb_true_iff in H. destruct H as [Hc He].
  rewrite (mathExpr_arithmetic_cons c e Hc), (IH He). reflexivity.
Qed.

Lemma arithmetic_not_blank (expr : jsstring) :
  expr <> [] -> forallb arithmetic_char expr = true ->
  forallb is_white_space expr = false.
Proof.
  destruct expr as [| c e]; [contradiction |]. intros _ H.
  cbn [forallb] in *. apply andb_true_iff in H. destruct H as [Hc _].
  apply arithmetic_char_cases in Hc. cbn in Hc.
  repeat (destruct Hc as [Hc | Hc]; [subst c; reflexivity |]).
  contradiction.
Qed.

(** ** Infix arithmetic *)

Lemma numeral_digits (u : Decimal.uint) :
  forallb is_digit (js (NilZero.string_of_uint u)) = true.
Proof.
  assert (E : forall d,
    forallb is_digit (js (NilEmpty.string_of_uint d)) = true).
  { induction d as [| d IH | d IH | d IH | d IH | d IH | d IH | d IH | d IH
                    | d IH | d IH]; [reflexivity | ..]; exact IH. }
  destruct u; [reflexivity | ..]; exact (E _).
Qed.

Lemma digit_arithmetic (c : N) :
  is_digit c = true -> arithmetic_char c = true.
Proof. unfold arithmetic_char. intros ->. reflexivity. Qed.

Lemma digit_ascii_operator (c : N) :
  is_digit c = true -> ascii_operator c = c.
Proof.
  unfold is_digit, ascii_operator, TIMES, DIVIDE, MINUS_SIGN. intro H.
  apply andb_true_iff in H. destruct H as [L U]. apply N.leb_le in L, U.
  destruct (N.eqb_spec c 215); [lia |].
  destruct (N.eqb_spec c 247); [lia |].
  destruct (N.eqb_spec c 8722); [lia |]. reflexivity.
Qed.

Lemma digits_arithmetic (s : jsstring) :
  forallb is_digit s = true ->
  forallb arithmetic_char s = true /\ map ascii_operator s = s.
Proof.
  induction s as [| c s IH]; cbn [forallb map]; [split; reflexivity |].
  intro H. apply andb_true_iff in H. destruct H as [Hc Hs].
  destruct (IH Hs) as [A E].
  rewrite (digit_arithmetic c Hc), A, (digit_ascii_operator c Hc), E.
  split; reflexivity.
Qed.

(** An expression is written in the alphabet of plain arithmetic, and
    replacing the glyphs gives its evaluator text. *)
Lemma print_arithmetic :
  (forall e, forallb arithmetic_char (print false e) = true /\
             map ascii_operator (print false e) = print true e) /\
  (forall t, forallb arithmetic_char (print_term false t) = true /\
             map ascii_operator (print_term false t) = print_term true t) /\
  (forall f, forallb arithmetic_char (print_factor false f) = true /\
             map ascii_operator (print_factor false f) = print_factor true f).
Proof.
  apply infix_ind.
  - intros t IH. exact IH.
  - intros e [A1 E1] o t [A2 E2]. cbn [print].
    rewrite forallb_app, map_app. cbn [forallb map].
    rewrite A1, A2, E1, E2. destruct o as [| []]; split; reflexivity.
  - intros f IH. exact IH.
  - intros t [A1 E1] o f [A2 E2]. cbn [print_term].
    rewrite forallb_app, map_app. cbn [forallb map].
    rewrite A1, A2, E1, E2. destruct o as [[] | []]; split; reflexivity.
  - intro u. cbn [print_factor]. apply digits_arithmetic, numeral_digits.
  - intros glyph f [A E]. cbn [print_factor forallb map].
    rewrite A, E. destruct glyph; split; reflexivity.
  - intros e [A E]. cbn [print_factor].
    change (js "(") with [40%N]. change (js ")") with [41%N].
    cbn [app forallb map]. rewrite forallb_app, map_app, A, E.
    split; reflexivity.
Qed.

Lemma print_not_empty :
  (forall e, print false e <> []) /\
  (forall t, print_term false t <> []) /\
  (forall f, print_factor false f <> []).
Proof.
  apply infix_ind.
  - intros t IH. exact IH.
  - intros e _ o t _. cbn [print]. intro H.
    apply app_eq_nil in H. destruct H as [_ H]. discriminate H.
  - intros f IH. exact IH.
  - intros t _ o f _. cbn [print_term]. intro H.
    apply app_eq_nil in H. destruct H as [_ H]. discriminate H.
  - intro u. cbn [print_factor]. destruct u; discriminate.
  - intros glyph f _. cbn [print_factor]. discriminate.
  - intros e _. cbn [print_factor]. discriminate.
Qed.

Lemma mathExpr_written (e : infix_expr) :
  mathExpr (written e) = evaluator_text e.
Proof.
  unfold written, evaluator_text.
  destruct (proj1 print_arithmetic e) as [A E].
  rewrite (mathExpr_arithmetic _ A). exact E.
Qed.

Lemma written_not_blank (e : infix_expr) :
  forallb is_white_space (written e) = false.
Proof.
  apply arithmetic_not_blank.
  - exact (proj1 print_not_empty e).
  - exact (proj1 (proj1 print_arithmetic e)).
Qed.

(** C1. For every expression of plain arithmetic (digits, the four
    operators as glyphs or ASCII characters, parentheses), [calculateResult]
    hands the evaluator the expression with each glyph × ÷ − replaced by
    * / -, and, when the evaluator returns the standard infix value [v] of
    the expression, returns the display form of [v]: "Error" when [v] is
    not finite, [v.toExponential(6)] when [|v| >= 1e10] or
    [0 < |v| < 1e-6], and what the library's [format] prints at precision
    10 otherwise.  The standard value of 2+3*4 is 14, and with 14 printed
    as "14" the result is "14". *)
Theorem arithmetic_display :
  (forall e : infix_expr,
     mathExpr (written e) = evaluator_text e /\
     (evaluate (evaluator_text e) = Some (value e) ->
      (isFinite (value e) = false ->
       calculateResult (written e) = js "Error") /\
      (isFinite (value e) = true ->
       ge (Math_abs (value e)) lit_1e10
       || (lt zero (Math_abs (value e))
           && lt (Math_abs (value e)) lit_1e_6) = true ->
       calculateResult (written e) = toExponential (value e) 6) /\
      (isFinite (value e) = true ->
       ge (Math_abs (value e)) lit_1e10
       || (lt zero (Math_abs (value e))
           && lt (Math_abs (value e)) lit_1e_6) = false ->
       calculateResult (written e) = format (value e) 10))) /\
  (written two_plus_three_times_four = js "2+3*4" /\
   value two_plus_three_times_four = literal "14" /\
   (evaluate (js "2+3*4") = Some (value two_plus_three_times_four) ->
    format (literal "14") 10 = js "14" ->
    calculateResult (js "2+3*4") = js "14")).
Proof.
  assert (G : forall e : infix_expr,
     evaluate (evaluator_text e) = Some (value e) ->
     calculateResult (written e) = formatResult (value e)).
  { intros e Ev. apply calculateResult_evaluated.
    - apply written_not_blank.
    - rewrite mathExpr_written. exact Ev. }
  split.
  - intro e. split; [apply mathExpr_written |].
    intro Ev. rewrite (G e Ev).
    split; [apply formatResult_nonfinite |].
    split; [apply formatResult_exponential | apply formatResult_plain].
  - split; [reflexivity |]. split; [vm_compute; reflexivity |].
    intros Ev Fm.
    change (js "2+3*4") with (written two_plus_three_times_four).
    rewrite (G two_plus_three_times_four Ev).
    rewrite formatResult_plain by (vm_compute; reflexivity).
    change (value two_plus_three_times_four) with (literal "14") at 1.
    exact Fm.
Qed.

(** ** The logarithm tokens *)

Lemma replace_all_token (pat rep a b : jsstring) :
  pat <> [] ->
  (forall c p', pat = c :: p' -> ~ In c p') ->
  replace_all pat rep (a ++ pat ++ b)
  = replace_all pat rep a ++ rep ++ replace_all pat rep b.
Proof.
  intros Hpat Hhead. rewrite replace_all_app; [| assumption |].
  - rewrite replace_all_match by assumption. reflexivity.
  - intros c s' E. destruct pat as [| p pat']; [contradiction |].
    injection E as E _. subst c. cbn [tl]. apply (Hhead p pat'). reflexivity.
Qed.

Ltac side_condition :=
  first [ reflexivity
        | discriminate
        | let c := fresh in let p := fresh in let E := fresh in
          intros c p E; injection E as <- <-; cbn; intuition discriminate ].

Lemma displaySymbols_around_ln (a b : jsstring) :
  displaySymbols (a ++ js "ln" ++ b)
  = displaySymbols a ++ js "ln" ++ displaySymbols b.
Proof.
  unfold displaySymbols.
  rewrite !(replace_all_around _ _ (js "ln")) by side_condition.
  reflexivity.
Qed.

Lemma displaySymbols_around_log (a b : jsstring) :
  displaySymbols (a ++ js "log" ++ b)
  = displaySymbols a ++ js "log" ++ displaySymbols b.
Proof.
  unfold displaySymbols.
  rewrite !(replace_all_around _ _ (js "log")) by side_condition.
  reflexivity.
Qed.

(** The replacements of sin, cos and tan by themselves do nothing. *)
Lemma scientificFunctions_chain (s : jsstring) :
  scientificFunctions s
  = replace_all (js "log") (js "log10") (replace_all (js "ln") (js "log") s).
Proof.
  unfold scientificFunctions. rewrite !replace_all_same by discriminate.
  reflexivity.
Qed.

Lemma ln_stage_ln (a b : jsstring) :
  replace_all (js "ln") (js "log") (a ++ js "ln" ++ b)
  = replace_all (js "ln") (js "log") a ++ js "log"
    ++ replace_all (js "ln") (js "log") b.
Proof. apply replace_all_token; side_condition. Qed.

Lemma ln_stage_log (a b : jsstring) :
  replace_all (js "ln") (js "log") (a ++ js "log" ++ b)
  = replace_all (js "ln") (js "log") a ++ js "log"
    ++ replace_all (js "ln") (js "log") b.
Proof.
  rewrite replace_all_app.
  - reflexivity.
  - discriminate.
  - intros c s' E. injection E as <- _. cbn. intuition discriminate.
Qed.

Lemma log_stage (a b : jsstring) :
  replace_all (js "log") (js "log10") (a ++ js "log" ++ b)
  = replace_all (js "log") (js "log10") a ++ js "log10"
    ++ replace_all (js "log") (js "log10") b.
Proof. apply replace_all_token; side_condition. Qed.

Lemma mathExpr_ln (a b : jsstring) :
  mathExpr (a ++ js "ln" ++ b) = mathExpr a ++ js "log10" ++ mathExpr b.
Proof.
  unfold mathExpr. rewrite displaySymbols_around_ln.
  rewrite !scientificFunctions_chain, ln_stage_ln, log_stage. reflexivity.
Qed.

Lemma mathExpr_log (a b : jsstring) :
  mathExpr (a ++ js "log" ++ b) = mathExpr a ++ js "log10" ++ mathExpr b.
Proof.
  unfold mathExpr. rewrite displaySymbols_around_log.
  rewrite !scientificFunctions_chain, ln_stage_log, log_stage. reflexivity.
Qed.

(** C9. The ln key inserts the token "ln(".  The replacements turn "ln"
    into "log" and then every "log" into "log10", so wherever "ln" occurs
    in an expression the evaluator is handed "log10" in its place, the same
    as for the token "log": "ln(100)" is evaluated as "log10(100)", and the
    result is "2" when the evaluator computes log10(100) = 2 and 2 is
    printed as "2". *)
Theorem ln_is_decimal_logarithm :
  (forall st, expression (handleScientificFunction st (js "ln"))
              = expression st ++ js "ln(") /\
  (forall expr, mathExpr expr
     = replace_all (js "log") (js "log10")
         (replace_all (js "ln") (js "log") (displaySymbols expr))) /\
  (forall a b,
     mathExpr (a ++ js "ln" ++ b) = mathExpr a ++ js "log10" ++ mathExpr b) /\
  (forall a b, mathExpr (a ++ js "ln" ++ b) = mathExpr (a ++ js "log" ++ b)) /\
  mathExpr (js "ln(100)") = js "log10(100)" /\
  (evaluate (js "log10(100)") = Some (literal "2") ->
   format (literal "2") 10 = js "2" ->
   calculateResult (js "ln(100)") = js "2").
Proof.
  split; [reflexivity |].
  split; [intro expr; apply scientificFunctions_chain |].
  split; [exact mathExpr_ln |].
  split; [intros a b; rewrite mathExpr_ln, mathExpr_log; reflexivity |].
  split; [reflexivity |].
  intros Ev Fm.
  rewrite (calculateResult_evaluated (js "ln(100)") (literal "2"));
    [| reflexivity | exact Ev].
  rewrite formatResult_plain by (vm_compute; reflexivity). exact Fm.
Qed.

(** ** The invariants *)

Lemma updateExpression_error_flag (st : CalculatorState) (e : jsstring) :
  error_flag_ok (updateExpression st e).
Proof.
  unfold error_flag_ok. cbn [updateExpression hasError result].
  apply str_eq_true.
Qed.

Lemma updateExpression_result (st : CalculatorState) (e : jsstring) :
  result_ok (updateExpression st e).
Proof. reflexivity. Qed.

Lemma initialState_result : result_ok initialState.
Proof. reflexivity. Qed.

Lemma handleClearAll_updateExpression (st : CalculatorState) :
  handleClearAll st = updateExpression st (js "").
Proof. reflexivity. Qed.

Lemma step_error_flag (st : CalculatorState) (ev : event) :
  error_flag_ok st -> error_flag_ok (step st ev).
Proof.
  intro H. destruct ev as [num | op | func | paren | | | | | func];
    cbn [step].
  - apply updateExpression_error_flag.
  - unfold handleOperator. destruct (_ && _); apply updateExpression_error_flag.
  - unfold handleScientificFunction.
    repeat (destruct (str_eq _ _) || destruct (array_includes _ _));
      apply updateExpression_error_flag.
  - apply updateExpression_error_flag.
  - unfold handleDecimal. destruct (negb _);
      [apply updateExpression_error_flag | exact H].
  - apply updateExpression_error_flag.
  - rewrite handleClearAll_updateExpression.
    apply updateExpression_error_flag.
  - unfold handleCalculate. destruct (hasError st) eqn:E; [exact H |].
    unfold error_flag_ok. cbn [hasError result]. apply str_eq_true.
  - unfold handleMemoryFunction.
    destruct (str_eq func (js "MC")); [exact H |].
    destruct (str_eq func (js "MR")); [apply updateExpression_error_flag |].
    destruct (str_eq func (js "M+")); [destruct (negb _); exact H |].
    destruct (str_eq func (js "M-")); [destruct (negb _); exact H |].
    exact H.
Qed.

Lemma step_result (st : CalculatorState) (ev : event) :
  ev <> Calculate -> result_ok st -> result_ok (step st ev).
Proof.
  intros NC H. destruct ev as [num | op | func | paren | | | | | func];
    cbn [step].
  - apply updateExpression_result.
  - unfold handleOperator. destruct (_ && _); apply updateExpression_result.
  - unfold handleScientificFunction.
    repeat (destruct (str_eq _ _) || destruct (array_includes _ _));
      apply updateExpression_result.
  - apply updateExpression_result.
  - unfold handleDecimal. destruct (negb _);
      [apply updateExpression_result | exact H].
  - apply updateExpression_result.
  - rewrite handleClearAll_updateExpression. apply updateExpression_result.
  - contradiction.
  - unfold handleMemoryFunction.
    destruct (str_eq func (js "MC")); [exact H |].
    destruct (str_eq func (js "MR")); [apply updateExpression_result |].
    destruct (str_eq func (js "M+")); [destruct (negb _); exact H |].
    destruct (str_eq func (js "M-")); [destruct (negb _); exact H |].
    exact H.
Qed.

Lemma run_result (evs : list event) (st : CalculatorState) :
  ~ In Calculate evs -> result_ok st -> result_ok (run st evs).
Proof.
  unfold run. revert st.
  induction evs as [| ev evs IH]; intros st NC H; [exact H |].
  cbn [fold_left]. apply IH.
  - intro I. apply NC. right. exact I.
  - apply step_result; [| exact H]. intro E. apply NC. left. exact E.
Qed.

Lemma reachable_run (evs : list event) (st : CalculatorState) :
  reachable st -> reachable (run st evs).
Proof.
  unfold run. revert st.
  induction evs as [| ev evs IH]; intros st H; [exact H |].
  cbn [fold_left]. apply IH. apply reachable_step. exact H.
Qed.

Lemma reachable_error_flag (st : CalculatorState) :
  reachable st -> error_flag_ok st.
Proof.
  induction 1 as [| st ev R IH].
  - unfold error_flag_ok, initialState.
    split; intro X; vm_compute in X; discriminate X.
  - apply step_error_flag. exact IH.
Qed.

(** C8, as the code has it.  In every reachable state [hasError] is set
    exactly when the result is "Error".  [updateExpression] stores the
    evaluation of the new expression, every operation other than equals
    preserves "the result is the evaluation of the expression", and so this
    holds in every state reached without equals.  Equals keeps it when the
    evaluation fails; when it succeeds, equals stores the formatted result as
    the new expression, next to the same string as result, so that the
    result is the evaluation of the new expression exactly when the
    formatted result evaluates to itself. *)
Theorem result_invariant :
  (forall st, reachable st -> error_flag_ok st) /\
  (forall st e, result_ok (updateExpression st e)) /\
  (forall st ev, ev <> Calculate -> result_ok st -> result_ok (step st ev)) /\
  (forall evs, ~ In Calculate evs -> result_ok (run initialState evs)) /\
  (forall st, calculateResult (expression st) = js "Error" ->
     result_ok st -> result_ok (handleCalculate st)) /\
  (forall st, hasError st = false ->
     calculateResult (expression st) <> js "Error" ->
     expression (handleCalculate st) = calculateResult (expression st) /\
     result (handleCalculate st) = calculateResult (expression st) /\
     hasError (handleCalculate st) = false /\
     (result_ok (handleCalculate st) <->
      calculateResult (calculateResult (expression st))
      = calculateResult (expression st))).
Proof.
  split; [exact reachable_error_flag |].
  split; [exact updateExpression_result |].
  split; [exact step_result |].
  split.
  { intros evs NC. apply run_result; [exact NC | exact initialState_result]. }
  split.
  - intros st E H. unfold handleCalculate.
    destruct (hasError st); [exact H |].
    unfold result_ok. cbn [result expression].
    rewrite E, str_eq_refl. symmetry. exact E.
  - intros st F NE. unfold result_ok, handleCalculate. rewrite F.
    cbn [expression result hasError].
    apply str_eq_false in NE. rewrite NE.
    repeat split; intro H; symmetry; exact H.
Qed.

(** ** Equals and the formatted result *)

Lemma run_app (evs1 evs2 : list event) (st : CalculatorState) :
  run st (evs1 ++ evs2) = run (run st evs1) evs2.
Proof. unfold run. apply fold_left_app. Qed.

Lemma run_one (ev : event) (st : CalculatorState) : run st [ev] = step st ev.
Proof. reflexivity. Qed.

Lemma typed_small_number :
  run initialState (typed "0.00000099999999999")
  = updateExpression initialState (js "0.00000099999999999").
Proof. reflexivity. Qed.

(** Whatever the library, as long as it reads the two numerals below as
    numbers and does not print 1e-6 the way [toExponential] does: after
    typing 0.00000099999999999 and pressing equals, the result on display is
    not the evaluation of the expression. *)
Lemma equals_rounds_across_threshold :
  evaluate (js "0.00000099999999999") = Some (literal "0.00000099999999999") ->
  evaluate (js "1.000000e-6") = Some (literal "1.000000e-6") ->
  format (literal "1.000000e-6") 10 <> js "1.000000e-6" ->
  let st := run initialState (typed "0.00000099999999999" ++ [Calculate]) in
  reachable st /\ expression st = js "1.000000e-6" /\
  result st = js "1.000000e-6" /\ ~ result_ok st.
Proof.
  intros E1 E2 F st.
  assert (C1 : calculateResult (js "0.00000099999999999") = js "1.000000e-6").
  { rewrite (calculateResult_evaluated (js "0.00000099999999999") _
               eq_refl E1).
    rewrite formatResult_exponential by (vm_compute; reflexivity).
    vm_compute. reflexivity. }
  assert (C2 : calculateResult (js "1.000000e-6")
               = format (literal "1.000000e-6") 10).
  { rewrite (calculateResult_evaluated (js "1.000000e-6") _ eq_refl E2).
    apply formatResult_plain; vm_compute; reflexivity. }
  assert (S : st = {| expression := js "1.000000e-6";
                      result := js "1.000000e-6";
                      memory := zero;
                      hasError := false |}).
  { subst st. rewrite run_app, typed_small_number, run_one. cbn [step].
    unfold handleCalculate, updateExpression.
    cbn [hasError expression result memory]. rewrite C1. reflexivity. }
  split; [apply reachable_run; apply reachable_initial |].
  rewrite S. split; [reflexivity |]. split; [reflexivity |].
  unfold result_ok. cbn [result expression]. rewrite C2.
  intro H. apply F. symmetry. exact H.
Qed.

End Properties.

(* ================================================================== *)
(** * The properties on the sample library *)
(* ================================================================== *)

Lemma arithmetic_display_witness :
  let e := Single (Multiplicative
                     (Simple (Bracketed
                        (Additive (Single (Simple (numeral 2))) Add
                                  (Simple (numeral 3)))))
                     (Multiply true) (numeral 4)) in
  written e = js "(2+3)×4" /\
  value e = literal "20" /\
  calculateResult (M := Sample.mathjs) (written e)
  = format (MathJs := Sample.mathjs) (value e) 10 /\
  calculateResult (M := Sample.mathjs) (js "2+3*4") = js "14".
Proof.
  intro e.
  destruct (@arithmetic_display Sample.mathjs) as [General [_ [_ Example]]].
  split; [reflexivity |]. split; [vm_compute; reflexivity |].
  split.
  - destruct (General e) as [_ Display].
    destruct Display as [_ [_ Plain]]; [vm_compute; reflexivity |].
    apply Plain; vm_compute; reflexivity.
  - apply Example; vm_compute; reflexivity.
Defined.

(** Counterexample to C1 as the specification states it.  The display
    form is a rounding: 99999×99999×9 has the standard value 89998200009,
    the evaluator returns it, and the result is the string "8.999820e+10",
    which is not the string of that value and denotes another number. *)
Lemma arithmetic_result_is_rounded :
  written large_product = js "99999×99999×9" /\
  evaluate (MathJs := Sample.mathjs) (evaluator_text large_product)
  = Some (value large_product) /\
  Number_toString (value large_product) = js "89998200009" /\
  calculateResult (M := Sample.mathjs) (written large_product)
  = js "8.999820e+10" /\
  parseFloat (js "8.999820e+10") <> value large_product.
Proof.
  split; [reflexivity |].
  split; [vm_compute; reflexivity |].
  split; [vm_compute; reflexivity |].
  split; [vm_compute; reflexivity |].
  intro H. vm_compute in H. discriminate H.
Qed.

Lemma calculateResult_error_boundary_witness :
  calculateResult (M := Sample.mathjs) (js "   ") = js "0" /\
  calculateResult (M := Sample.mathjs) (js "2+") = js "Error" /\
  calculateResult (M := Sample.mathjs) (js "5÷0") = js "Error".
Proof.
  split; [| split].
  - apply (proj1 (@calculateResult_error_boundary Sample.mathjs (js "   "))).
    reflexivity.
  - apply (proj1 (proj2
      (@calculateResult_error_boundary Sample.mathjs (js "2+"))));
      reflexivity.
  - apply (proj1 (proj2 (proj2
      (@calculateResult_error_boundary Sample.mathjs (js "5÷0"))))
      eq_refl Infinity); reflexivity.
Defined.



Lemma equals_after_error_witness :
  let st := run (M := Sample.mathjs) initialState
                [Number (js "5"); Operator (js "÷"); Number (js "0")] in
  expression st = js "5÷0" /\ result st = js "Error" /\
  hasError st = true /\ handleCalculate (M := Sample.mathjs) st = st.
Proof.
  apply (proj2 (proj2 (proj2 (@equals_after_error Sample.mathjs)))).
  - reflexivity.
  - intros v E. vm_compute in E. injection E as <-. reflexivity.
Defined.

Lemma operator_collision_witness :
  let st := updateExpression (M := Sample.mathjs) initialState (js "5+") in
  handleOperator (M := Sample.mathjs) st (js "×")
  = updateExpression (M := Sample.mathjs) st (js "5×").
Proof.
  apply (proj1 (@operator_collision Sample.mathjs) _ (js "5") PLUS (js "×")).
  - reflexivity.
  - reflexivity.
  - cbn. tauto.
Defined.

Lemma clear_all_frame_witness :
  let st := handleMemoryFunction (M := Sample.mathjs)
              (updateExpression (M := Sample.mathjs) initialState (js "14"))
              (js "M+") in
  memory (run (M := Sample.mathjs) st [Number (js "7"); ClearAll; Backspace])
  = memory st.
Proof.
  apply (proj2 (proj2 (@clear_all_frame Sample.mathjs))).
  repeat constructor; unfold touches_memory; intuition discriminate.
Defined.

Lemma memory_accumulate_witness :
  let failed := updateExpression (M := Sample.mathjs) initialState (js "5÷0") in
  let shown := updateExpression (M := Sample.mathjs) initialState (js "14") in
  handleMemoryFunction (M := Sample.mathjs) failed (js "M+") = failed /\
  memory (handleMemoryFunction (M := Sample.mathjs) shown (js "M+"))
  = literal "14".
Proof.
  split.
  - apply (proj1 (@memory_accumulate Sample.mathjs _)). reflexivity.
  - destruct (@memory_accumulate Sample.mathjs
                (updateExpression (M := Sample.mathjs) initialState (js "14")))
      as [_ [_ P]].
    destruct P as [P _]; [reflexivity |]. rewrite P. reflexivity.
Defined.



Lemma ln_is_decimal_logarithm_witness :
  calculateResult (M := Sample.mathjs) (js "ln(100)") = js "2".
Proof.
  apply (proj2 (proj2 (proj2 (proj2 (proj2
    (@ln_is_decimal_logarithm Sample.mathjs)))))); reflexivity.
Defined.

Lemma result_invariant_witness :
  error_flag_ok after_equals /\
  result_ok (M := Sample.mathjs)
    (run (M := Sample.mathjs) initialState (typed "0.00000099999999999")).
Proof.
  destruct (@result_invariant Sample.mathjs) as [F [_ [_ [R _]]]].
  split.
  - apply F. apply reachable_run. apply reachable_initial.
  - apply R. cbn. intuition discriminate.
Defined.

(** Counterexample to C8 as the specification states it.  Typing
    0.00000099999999999 and pressing equals shows "1.000000e-6" and stores
    that string as the expression; the evaluation of the expression
    "1.000000e-6" is the number 1e-6, which is not below the threshold 1e-6
    and is printed by [format], as "1e-6": the result on display is not the
    evaluation of the current expression. *)
Lemma equals_breaks_result_invariant :
  reachable (M := Sample.mathjs) after_equals /\
  expression after_equals = js "1.000000e-6" /\
  result after_equals = js "1.000000e-6" /\
  calculateResult (M := Sample.mathjs) (expression after_equals) = js "1e-6" /\
  ~ result_ok (M := Sample.mathjs) after_equals.
Proof.
  split; [apply reachable_run; apply reachable_initial |].
  split; [vm_compute; reflexivity |].
  split; [vm_compute; reflexivity |].
  split; [vm_compute; reflexivity |].
  unfold result_ok. intro H. vm_compute in H. discriminate H.
Qed.

(* ================================================================== *)
(** * The keyboard *)
(* ================================================================== *)

Section KeyboardProperties.

Context {M : MathJs}.

Lemma digit_in_key_class (key : jsstring) :
  class_test is_digit key = true ->
  class_test calculator_key_class key = true.
Proof.
  unfold class_test. rewrite !existsb_exists.
  intros [c [Hc D]]. exists c. split; [exact Hc |].
  unfold calculator_key_class. rewrite D. reflexivity.
Qed.

Lemma handleKeyDown_other (st : CalculatorState) (key : jsstring) :
  class_test is_digit key = false ->
  ~ In key handled_keys ->
  handleKeyDown st key = st.
Proof.
  intros D H. unfold handleKeyDown, lowercase_is_c. rewrite D.
  repeat match goal with
  | |- context [str_eq key ?k] =>
    let E := fresh "E" in
    destruct (str_eq key k) eqn:E;
    [ apply str_eq_true in E; exfalso; apply H; rewrite E; cbn; tauto | ]
  end.
  reflexivity.
Qed.

(** X1. The keyboard drives the handlers of the pad.  A key whose name
    contains a digit is entered whole as a number; the keys + - * / enter
    the display glyph that the evaluator adapter turns back into the key;
    the other named keys call the handler of their button; every other key
    leaves the state as it is. *)
Theorem keyboard_dispatch (st : CalculatorState) :
  (forall key, class_test is_digit key = true ->
     handleKeyDown st key = handleNumber st key) /\
  (forall k, In k (js "+-*/") ->
     exists g, operator_class g = true /\ ascii_operator g = k /\
               handleKeyDown st [k] = handleOperator st [g]) /\
  handleKeyDown st (js ".") = handleDecimal st /\
  handleKeyDown st (js "(") = handleParenthesis st (js "(") /\
  handleKeyDown st (js ")") = handleParenthesis st (js ")") /\
  handleKeyDown st (js "Enter") = handleCalculate st /\
  handleKeyDown st (js "=") = handleCalculate st /\
  handleKeyDown st (js "Backspace") = handleBackspace st /\
  handleKeyDown st (js "Escape") = handleClearAll st /\
  handleKeyDown st (js "c") = handleClearAll st /\
  handleKeyDown st (js "C") = handleClearAll st /\
  (forall key, class_test is_digit key = false -> ~ In key handled_keys ->
     handleKeyDown st key = st).
Proof.
  split.
  { intros key D. unfold handleKeyDown. rewrite D. reflexivity. }
  split.
  { intros k H. cbn in H.
    destruct H as [<- | [<- | [<- | [<- | []]]]].
    - exists PLUS. repeat split.
    - exists MINUS_SIGN. repeat split.
    - exists TIMES. repeat split.
    - exists DIVIDE. repeat split. }
  repeat (split; [reflexivity |]).
  intros key D H. apply handleKeyDown_other; assumption.
Qed.

(** X2. A key that changes the state has its default action prevented,
    with the one exception of the capital C. *)
Theorem handled_keys_are_prevented (st : CalculatorState) (key : jsstring) :
  handleKeyDown st key <> st ->
  preventsDefault key = true \/ key = js "C".
Proof.
  intro H. destruct (class_test is_digit key) eqn:D.
  - left. unfold preventsDefault.
    rewrite (digit_in_key_class key D). reflexivity.
  - destruct (in_dec eq_dec key handled_keys) as [I | NI].
    + cbn in I.
      repeat (destruct I as [<- | I];
              [(left; reflexivity) || (right; reflexivity) |]).
      contradiction.
    + exfalso. apply H. apply handleKeyDown_other; assumption.
Qed.

(** Every key is ignored or acts as an event of the page. *)
Lemma handleKeyDown_event (st : CalculatorState) (key : jsstring) :
  (class_test is_digit key = true ->
   count operator_class key = 0%nat /\ count is_point key = 0%nat) ->
  handleKeyDown st key = st \/
  exists ev, page_event ev /\ ev <> MemoryFunction (js "MR") /\
             handleKeyDown st key = step st ev.
Proof.
  intro K. unfold handleKeyDown, lowercase_is_c.
  destruct (class_test is_digit key).
  { right. exists (Number key). split; [exact (K eq_refl) |].
    split; [discriminate | reflexivity]. }
  destruct (str_eq key (js "+")).
  { right. exists (Operator (js "+")). split; [cbn; tauto |].
    split; [discriminate | reflexivity]. }
  destruct (str_eq key (js "-")).
  { right. exists (Operator (js "−")). split; [cbn; tauto |].
    split; [discriminate | reflexivity]. }
  destruct (str_eq key (js "*")).
  { right. exists (Operator (js "×")). split; [cbn; tauto |].
    split; [discriminate | reflexivity]. }
  destruct (str_eq key (js "/")).
  { right. exists (Operator (js "÷")). split; [cbn; tauto |].
    split; [discriminate | reflexivity]. }
  destruct (str_eq key (js ".")).
  { right. exists Decimal. split; [exact I |].
    split; [discriminate | reflexivity]. }
  destruct (str_eq key (js "(")) eqn:E1.
  { right. exists (Parenthesis key). apply str_eq_true in E1.
    split; [left; exact E1 |]. split; [discriminate | reflexivity]. }
  destruct (str_eq key (js ")")) eqn:E2.
  { right. exists (Parenthesis key). apply str_eq_true in E2.
    split; [right; exact E2 |]. split; [discriminate | reflexivity]. }
  cbn [orb].
  destruct (str_eq key (js "Enter") || str_eq key (js "=")).
  { right. exists Calculate. split; [exact I |].
    split; [discriminate | reflexivity]. }
  destruct (str_eq key (js "Backspace")).
  { right. exists Backspace. split; [exact I |].
    split; [discriminate | reflexivity]. }
  destruct (str_eq key (js "Escape")
            || (str_eq key (js "c") || str_eq key (js "C"))).
  { right. exists ClearAll. split; [exact I |].
    split; [discriminate | reflexivity]. }
  left. reflexivity.
Qed.

End KeyboardProperties.

Lemma keyboard_dispatch_witness :
  handleKeyDown (M := Sample.mathjs) initialState (js "F5")
  = handleNumber (M := Sample.mathjs) initialState (js "F5") /\
  handleKeyDown (M := Sample.mathjs) initialState (js "Tab") = initialState.
Proof.
  destruct (@keyboard_dispatch Sample.mathjs initialState)
    as [Digit [_ [_ [_ [_ [_ [_ [_ [_ [_ [_ Other]]]]]]]]]]].
  split.
  - apply Digit. reflexivity.
  - apply Other; [reflexivity |]. cbn. intuition discriminate.
Defined.

Lemma handled_keys_are_prevented_witness :
  preventsDefault (js "7") = true \/ js "7" = js "C".
Proof.
  apply (@handled_keys_are_prevented Sample.mathjs initialState (js "7")).
  intro H. vm_compute in H. discriminate H.
Defined.

(* ================================================================== *)
(** * The tokens of the pad *)
(* ================================================================== *)

Section PadProperties.

Context {M : MathJs}.

(** The replacements act on a leading pad token alone. *)
Lemma mathExpr_leading_token (t rest : jsstring) :
  In t pad_tokens ->
  mathExpr (t ++ rest) = evaluator_token t ++ mathExpr rest.
Proof.
  intro H. cbn in H.
  repeat (destruct H as [<- | H]; [reflexivity |]).
  contradiction.
Qed.

Lemma mathExpr_tokens (ts : list jsstring) :
  Forall (fun t => In t pad_tokens) ts ->
  mathExpr (List.concat ts) = List.concat (map evaluator_token ts).
Proof.
  induction 1 as [| t ts Ht Hts IH]; [reflexivity |].
  cbn [List.concat map].
  rewrite (mathExpr_leading_token t _ Ht), IH. reflexivity.
Qed.

(** A pad token is not empty, and when it ends in an operator it is that
    operator. *)
Lemma pad_token_last (t : jsstring) :
  In t pad_tokens ->
  t <> [] /\ (operator_class (last t 0%N) = true -> removelast t = []).
Proof.
  intro H. cbn in H.
  repeat (destruct H as [<- | H];
          [split; [discriminate | intro O; (reflexivity || discriminate O)] |]).
  contradiction.
Qed.

Lemma concat_snoc {A} (ls : list (list A)) (l : list A) :
  List.concat (ls ++ [l]) = List.concat ls ++ l.
Proof.
  rewrite concat_app. cbn [List.concat]. rewrite app_nil_r. reflexivity.
Qed.

(** An expression made of pad tokens that ends in an operator ends in the
    token of that operator. *)
Lemma last_token_operator (ts : list jsstring) (pre : jsstring) (c : N) :
  Forall (fun t => In t pad_tokens) ts ->
  List.concat ts = pre ++ [c] ->
  operator_class c = true ->
  exists ts', ts = ts' ++ [[c]] /\ List.concat ts' = pre.
Proof.
  intros F E O. revert F E.
  induction ts as [| t ts' _] using rev_ind; intros F E.
  - destruct pre; discriminate E.
  - apply Forall_app in F. destruct F as [_ Ft].
    inversion Ft as [| ? ? Ht _]; subst.
    destruct (pad_token_last t Ht) as [Hne Hop].
    unfold jsstring in *. rewrite (concat_snoc ts' t) in E.
    rewrite (app_removelast_last 0%N Hne), app_assoc in E.
    apply app_inj_tail in E. destruct E as [E1 E2].
    rewrite <- E2 in O. specialize (Hop O).
    rewrite Hop, app_nil_r in E1.
    exists ts'. split; [| exact E1].
    rewrite (app_removelast_last 0%N Hne), Hop, E2. reflexivity.
Qed.

Lemma tokenised_snoc (s t : jsstring) :
  tokenised s -> In t pad_tokens -> tokenised (s ++ t).
Proof.
  intros [ts [F E]] Ht. exists (ts ++ [t]). split.
  - apply Forall_app. split; [exact F | constructor; [exact Ht | constructor]].
  - unfold jsstring in *. rewrite concat_snoc, E. reflexivity.
Qed.

Lemma expression_updateExpression (st : CalculatorState) (e : jsstring) :
  expression (updateExpression st e) = e.
Proof. reflexivity. Qed.

Lemma pad_press_tokenised (st : CalculatorState) (ev : event) :
  pad_press ev -> tokenised (expression st) ->
  tokenised (expression (step st ev)).
Proof.
  intros P T. destruct ev as [num | op | func | paren | | | | | func];
    cbn [pad_press step] in *; try contradiction.
  - apply tokenised_snoc; [exact T |].
    cbn in P |- *. intuition auto.
  - assert (Top : In op pad_tokens) by (cbn in P |- *; intuition auto).
    destruct (snoc_cases (expression st)) as [E | [pre [c E]]].
    + rewrite handleOperator_appends by (left; exact E).
      rewrite expression_updateExpression.
      apply tokenised_snoc; assumption.
    + destruct (operator_class c) eqn:O.
      * rewrite (handleOperator_replaces st pre c op E O P).
        rewrite expression_updateExpression.
        destruct T as [ts [F Ets]]. rewrite E in Ets. symmetry in Ets.
        destruct (last_token_operator ts pre c F Ets O) as [ts' [E1 E2]].
        apply tokenised_snoc; [| exact Top].
        exists ts'. split; [| symmetry; exact E2].
        rewrite E1 in F. apply Forall_app in F. apply F.
      * rewrite handleOperator_appends
          by (right; left; exists pre, c; split; assumption).
        rewrite expression_updateExpression.
        apply tokenised_snoc; assumption.
  - cbn in P.
    repeat (destruct P as [<- | P];
            [apply (tokenised_snoc (expression st) _ T); cbn; tauto |]).
    contradiction.
  - destruct P as [-> | ->];
      apply (tokenised_snoc (expression st) _ T); cbn; tauto.
  - unfold handleDecimal. destruct (negb _); [| exact T].
    apply (tokenised_snoc (expression st) _ T). cbn. tauto.
  - exists []. split; [constructor | reflexivity].
Qed.

Lemma pad_run_tokenised (evs : list event) (st : CalculatorState) :
  Forall pad_press evs -> tokenised (expression st) ->
  tokenised (expression (run st evs)).
Proof.
  unfold run. revert st.
  induction evs as [| ev evs IH]; intros st F T; [exact T |].
  inversion F as [| ? ? Pev Pevs]; subst. cbn [fold_left].
  apply IH; [exact Pevs |]. apply pad_press_tokenised; assumption.
Qed.

(** X3. The replacements of the evaluator adapter translate a sequence of
    pad tokens token by token.  Every expression entered from the empty one
    with the pad (digits, point, operators, parentheses, function buttons,
    clear-all) is such a sequence, so the evaluator receives its tokens one
    by one in evaluator syntax. *)
Theorem pad_expression_translation :
  (forall ts, Forall (fun t => In t pad_tokens) ts ->
     mathExpr (List.concat ts) = List.concat (map evaluator_token ts)) /\
  (forall evs, Forall pad_press evs ->
     exists ts,
       Forall (fun t => In t pad_tokens) ts /\
       expression (run initialState evs) = List.concat ts /\
       mathExpr (expression (run initialState evs))
       = List.concat (map evaluator_token ts)).
Proof.
  split; [exact mathExpr_tokens |].
  intros evs F.
  destruct (pad_run_tokenised evs initialState F) as [ts [Fts E]].
  - exists []. split; [constructor | reflexivity].
  - exists ts. split; [exact Fts |]. split; [exact E |].
    rewrite E. apply mathExpr_tokens. exact Fts.
Qed.

End PadProperties.

Lemma pad_expression_translation_witness :
  exists ts,
    Forall (fun t => In t pad_tokens) ts /\
    expression (run (M := Sample.mathjs) initialState
                  [Number (js "2"); Operator (js "+"); Operator (js "×");
                   ScientificFunction (js "ln"); Number (js "5");
                   Parenthesis (js ")")])
    = List.concat ts /\
    mathExpr (expression (run (M := Sample.mathjs) initialState
                  [Number (js "2"); Operator (js "+"); Operator (js "×");
                   ScientificFunction (js "ln"); Number (js "5");
                   Parenthesis (js ")")]))
    = List.concat (map evaluator_token ts).
Proof.
  apply (proj2 (@pad_expression_translation Sample.mathjs)).
  repeat (apply Forall_cons; [cbn; tauto |]). apply Forall_nil.
Defined.

(* ================================================================== *)
(** * Editing: backspace, the decimal key, the operator keys *)
(* ================================================================== *)

Section EditingProperties.

Context {M : MathJs}.

Lemma updateExpression_twice (st : CalculatorState) (a b : jsstring) :
  updateExpression (updateExpression st a) b = updateExpression st b.
Proof. reflexivity. Qed.

(** Re-entering the expression of a consistent state gives the state. *)
Lemma updateExpression_same (st : CalculatorState) :
  result_ok st -> error_flag_ok st ->
  updateExpression st (expression st) = st.
Proof.
  unfold result_ok, error_flag_ok, updateExpression.
  destruct st as [e r m h]. cbn [expression result memory hasError].
  intros R F. rewrite <- R. f_equal.
  destruct h.
  - apply str_eq_true. apply F. reflexivity.
  - destruct (str_eq r (js "Error")) eqn:E; [| reflexivity].
    apply str_eq_true in E. symmetry. apply F. exact E.
Qed.

Lemma slice_init_firstn (s : jsstring) :
  slice s 0 (-1) = firstn (List.length s - 1) s.
Proof.
  destruct (snoc_cases s) as [-> | [pre [c ->]]]; [reflexivity |].
  rewrite slice_init_of_snoc, length_app. cbn [List.length].
  replace (List.length pre + 1 - 1)%nat with (List.length pre + 0)%nat by lia.
  rewrite firstn_app_2. cbn [firstn]. rewrite app_nil_r. reflexivity.
Qed.

Lemma backspaces (n : nat) (st : CalculatorState) (e : jsstring) :
  run (updateExpression st e) (repeat Backspace n)
  = updateExpression st (firstn (List.length e - n) e).
Proof.
  revert e. induction n as [| n IH]; intro e.
  - cbn [repeat]. rewrite Nat.sub_0_r, firstn_all. reflexivity.
  - cbn [repeat]. unfold run in *. cbn [fold_left step].
    unfold handleBackspace. rewrite expression_updateExpression.
    rewrite updateExpression_twice, IH, slice_init_firstn.
    rewrite firstn_firstn, length_firstn. f_equal. f_equal. lia.
Qed.

(** X4. In a consistent state (the result is the evaluation of the
    expression and the error flag agrees with it), deleting what was just
    entered restores the whole state: as many backspaces as the entered
    string has code units.  That is one backspace after a digit, a
    parenthesis or an accepted decimal point, [length func + 1] backspaces
    after one of the six function buttons that open a parenthesis (sin,
    cos, tan, ln, log, √), two after x² and one after x^y. *)
Theorem backspace_undoes_entry (st : CalculatorState) :
  result_ok st -> error_flag_ok st ->
  (forall s, run (handleNumber st s) (repeat Backspace (List.length s)) = st) /\
  (forall c, handleBackspace (handleNumber st [c]) = st) /\
  (forall c, handleBackspace (handleParenthesis st [c]) = st) /\
  (forall func, In func needsParentheses ->
     run (handleScientificFunction st func)
         (repeat Backspace (List.length func + 1)) = st) /\
  (handleDecimal st <> st -> handleBackspace (handleDecimal st) = st) /\
  run (handleScientificFunction st (js "x²")) (repeat Backspace 2) = st /\
  handleBackspace (handleScientificFunction st (js "x^y")) = st.
Proof.
  intros R F.
  assert (G : forall s,
    run (updateExpression st (expression st ++ s))
        (repeat Backspace (List.length s)) = st).
  { intro s. rewrite backspaces, length_app.
    replace (List.length (expression st) + List.length s - List.length s)%nat
      with (List.length (expression st) + 0)%nat by lia.
    rewrite firstn_app_2. cbn [firstn]. rewrite app_nil_r.
    apply updateExpression_same; assumption. }
  split; [exact G |].
  split; [intro c; exact (G [c]) |].
  split; [intro c; exact (G [c]) |].
  split.
  - intros func I. cbn in I.
    repeat (destruct I as [<- | I]; [exact (G _) |]).
    contradiction.
  - split; [| split].
    + intro D. unfold handleDecimal in *.
      destruct (negb _); [exact (G (js ".")) | contradiction].
    + exact (G (js "^2")).
    + exact (G (js "^")).
Qed.

(** X5. Enough backspaces clear the display: at least one backspace and at
    least as many as the expression has code units give the state that
    clear-all gives; on the empty expression backspace is clear-all. *)
Theorem backspace_clears (st : CalculatorState) (n : nat) :
  (1 <= n)%nat -> (List.length (expression st) <= n)%nat ->
  run st (repeat Backspace n) = handleClearAll st.
Proof.
  intros P L. destruct n as [| n]; [lia |].
  cbn [repeat]. unfold run. cbn [fold_left step].
  unfold handleBackspace.
  fold (run (updateExpression st (slice (expression st) 0 (-1)))
            (repeat Backspace n)).
  rewrite backspaces, slice_init_firstn, length_firstn.
  replace (Nat.min (List.length (expression st) - 1)
                   (List.length (expression st)) - n)%nat with 0%nat by lia.
  reflexivity.
Qed.

(** X6. Pressing the decimal key twice is the same as pressing it once. *)
Theorem decimal_key_idempotent (st : CalculatorState) :
  handleDecimal (handleDecimal st) = handleDecimal st.
Proof.
  destruct (last_piece_exists operator_class (expression st))
    as [pre [seg [E [Hseg Hpre]]]].
  rewrite (handleDecimal_lastPart st pre seg E Hseg Hpre).
  change (js ".") with [DOT].
  destruct (includes seg [DOT]) eqn:I; cbn [negb].
  - rewrite (handleDecimal_lastPart st pre seg E Hseg Hpre).
    change (js ".") with [DOT]. rewrite I. reflexivity.
  - rewrite (handleDecimal_lastPart (updateExpression st (expression st ++ [DOT]))
               pre (seg ++ [DOT])).
    + change (js ".") with [DOT].
      replace (includes (seg ++ [DOT]) [DOT]) with true; [reflexivity |].
      symmetry. apply includes_unit. apply in_or_app. right. left. reflexivity.
    + rewrite expression_updateExpression, E, app_assoc. reflexivity.
    + unfold non_operator in *. rewrite forallb_app, Hseg. reflexivity.
    + exact Hpre.
Qed.

Lemma operator_glyph (op : jsstring) :
  In op operators -> exists g, op = [g] /\ operator_class g = true.
Proof.
  intro H. cbn in H.
  repeat (destruct H as [<- | H]; [eexists; split; reflexivity |]).
  contradiction.
Qed.

(** Both branches of [handleOperator] leave the operator last. *)
Lemma handleOperator_result (st : CalculatorState) (op : jsstring) :
  In op operators ->
  exists x, handleOperator st op = updateExpression st (x ++ op) /\
            forall op', In op' operators ->
              handleOperator st op' = updateExpression st (x ++ op').
Proof.
  intro O. destruct (snoc_cases (expression st)) as [E | [pre [c E]]].
  - exists (expression st). split; [| intros op' _];
      apply handleOperator_appends; left; exact E.
  - destruct (operator_class c) eqn:C.
    + exists pre. split; [| intros op' O'];
        apply (handleOperator_replaces st pre c); assumption.
    + exists (expression st). split; [| intros op' _];
        apply handleOperator_appends; right; left; exists pre, c;
        split; assumption.
Qed.

Lemma handleOperator_twice (st : CalculatorState) (op1 op2 : jsstring) :
  In op1 operators -> In op2 operators ->
  handleOperator (handleOperator st op1) op2 = handleOperator st op2.
Proof.
  intros O1 O2.
  destruct (handleOperator_result st op1 O1) as [x [E1 E2]].
  destruct (operator_glyph op1 O1) as [g [-> G]].
  rewrite E1, (E2 op2 O2).
  rewrite (handleOperator_replaces (updateExpression st (x ++ [g])) x g op2);
    [apply updateExpression_twice | reflexivity | exact G | exact O2].
Qed.

(** X7. Of operator keys pressed in a row only the last one counts: the
    state is the one that pressing the last operator alone gives. *)
Theorem operator_keys_last_wins (st : CalculatorState)
        (ops : list jsstring) (op : jsstring) :
  Forall (fun o => In o operators) ops -> In op operators ->
  run st (map Operator ops ++ [Operator op]) = handleOperator st op.
Proof.
  intros F O. revert st op O.
  induction ops as [| o ops IH] using rev_ind; intros st op O.
  - reflexivity.
  - apply Forall_app in F. destruct F as [F Fo].
    inversion Fo as [| ? ? Ho _]; subst.
    rewrite map_app. cbn [map]. rewrite run_app, (IH F st o Ho), run_one.
    cbn [step]. apply handleOperator_twice; assumption.
Qed.

End EditingProperties.

(* ================================================================== *)
(** * The shape of printed numbers *)
(* ================================================================== *)

Lemma count_app (p : N -> bool) (a b : jsstring) :
  count p (a ++ b) = (count p a + count p b)%nat.
Proof. unfold count. rewrite filter_app, length_app. reflexivity. Qed.

Lemma count_cons (p : N -> bool) (c : N) (s : jsstring) :
  count p (c :: s) = ((if p c then 1 else 0) + count p s)%nat.
Proof. unfold count. cbn [filter]. destruct (p c); reflexivity. Qed.

Lemma count_firstn_skipn (p : N -> bool) (n : nat) (s : jsstring) :
  (count p (firstn n s) + count p (skipn n s))%nat = count p s.
Proof. rewrite <- count_app, firstn_skipn. reflexivity. Qed.

Lemma count_rev (p : N -> bool) (s : jsstring) : count p (rev s) = count p s.
Proof.
  induction s as [| c s IH]; [reflexivity |].
  cbn [rev]. rewrite count_app, IH, !count_cons.
  change (count p []) with 0%nat. lia.
Qed.

Lemma count_repeat (p : N -> bool) (c : N) (n : nat) :
  p c = false -> count p (repeat c n) = 0%nat.
Proof.
  intro H. induction n as [| n IH]; [reflexivity |].
  cbn [repeat]. rewrite count_cons, H, IH. reflexivity.
Qed.

Lemma count_digits (p : N -> bool) (s : jsstring) :
  (forall c, is_digit c = true -> p c = false) ->
  forallb is_digit s = true -> count p s = 0%nat.
Proof.
  intros H. induction s as [| c s IH]; [reflexivity |].
  cbn [forallb]. intro D. apply andb_true_iff in D. destruct D as [Dc Ds].
  rewrite count_cons, (H c Dc), (IH Ds). reflexivity.
Qed.

(** The decimal digits of a number are digits. *)
Lemma string_of_uint_digits (d : Decimal.uint) :
  forallb is_digit (js (NilEmpty.string_of_uint d)) = true.
Proof.
  induction d as [| d IH | d IH | d IH | d IH | d IH | d IH | d IH | d IH
                  | d IH | d IH]; [reflexivity | ..];
    exact IH.
Qed.

Lemma decimal_digits_digits (n : Z) :
  forallb is_digit (decimal_digits n) = true.
Proof.
  unfold decimal_digits, NilZero.string_of_uint.
  destruct (N.to_uint (Z.to_N n)) eqn:E;
    [reflexivity | ..]; rewrite <- E; apply string_of_uint_digits.
Qed.

Lemma digit_not_operator (c : N) :
  is_digit c = true -> operator_class c = false.
Proof.
  unfold is_digit, operator_class, PLUS, MINUS_SIGN, TIMES, DIVIDE.
  intro H. apply andb_true_iff in H. destruct H as [L U].
  apply N.leb_le in L, U.
  repeat (apply orb_false_iff; split); apply N.eqb_neq; lia.
Qed.

Lemma digit_not_point (c : N) : is_digit c = true -> is_point c = false.
Proof.
  unfold is_digit, is_point, DOT.
  intro H. apply andb_true_iff in H. destruct H as [L U].
  apply N.leb_le in L, U. apply N.eqb_neq. lia.
Qed.

Lemma forallb_firstn {A} (p : A -> bool) (n : nat) (l : list A) :
  forallb p l = true -> forallb p (firstn n l) = true.
Proof.
  intro H. rewrite <- (firstn_skipn n l), forallb_app in H.
  apply andb_true_iff in H. apply H.
Qed.

Lemma forallb_skipn {A} (p : A -> bool) (n : nat) (l : list A) :
  forallb p l = true -> forallb p (skipn n l) = true.
Proof.
  intro H. rewrite <- (firstn_skipn n l), forallb_app in H.
  apply andb_true_iff in H. apply H.
Qed.

Lemma operator_class_numeral_free : numeral_free operator_class.
Proof. split; [exact digit_not_operator | reflexivity]. Qed.

Lemma is_point_numeral_free : numeral_free is_point.
Proof. split; [exact digit_not_point | reflexivity]. Qed.

Lemma count_literal (p : N -> bool) (lit : jsstring) :
  numeral_free p ->
  forallb (fun c => existsb (N.eqb c) (js "NaInfity-e")) lit = true ->
  count p lit = 0%nat.
Proof.
  intros [_ H] L. rewrite forallb_forall in H, L.
  induction lit as [| c lit IH]; [reflexivity |].
  rewrite count_cons, IH by (intros x Hx; apply L; right; exact Hx).
  specialize (L c (or_introl eq_refl)). apply existsb_exists in L.
  destruct L as [d [Hd E]]. apply N.eqb_eq in E. subst d.
  specialize (H c Hd). apply negb_true_iff in H. rewrite H. reflexivity.
Qed.

Lemma count_sign (p : N -> bool) (c : jsstring) :
  c = js "+" \/ c = js "-" -> numeral_free p ->
  (count p c <= flag (p 43%N))%nat.
Proof.
  intros [-> | ->] H.
  - change (js "+") with [43%N]. rewrite count_cons.
    unfold flag. cbn. lia.
  - rewrite (count_literal p (js "-") H) by reflexivity. lia.
Qed.

Lemma count_pointed (p : N -> bool) (a b : jsstring) :
  numeral_free p ->
  forallb is_digit a = true -> forallb is_digit b = true ->
  (count p (a ++ js "." ++ b) <= flag (p 46%N))%nat.
Proof.
  intros H A B. rewrite !count_app.
  rewrite (count_digits p a (proj1 H) A), (count_digits p b (proj1 H) B).
  change (js ".") with [46%N]. rewrite count_cons. unfold flag. cbn. lia.
Qed.

(** The form [-d.ddd e+xx] of [toExponential]. *)
Lemma count_exponential_form (p : N -> bool) (neg : bool) (m0 : jsstring)
      (f e : Z) :
  numeral_free p -> forallb is_digit m0 = true ->
  (count p ((if neg then js "-" else [])
            ++ (if (f =? 0)%Z then m0
                else firstn 1 m0 ++ js "." ++ skipn 1 m0)
            ++ js "e" ++ (if (0 <=? e)%Z then js "+" else js "-")
            ++ decimal_digits (Z.abs e))
   <= flag (p 43%N) + flag (p 46%N))%nat.
Proof.
  intros H D.
  assert (Minus : count p (js "-") = 0%nat)
    by (apply count_literal; [exact H | reflexivity]).
  assert (E : count p (js "e") = 0%nat)
    by (apply count_literal; [exact H | reflexivity]).
  assert (Plus : count p (js "+") = flag (p 43%N))
    by (change (js "+") with [43%N]; rewrite count_cons;
        unfold flag; cbn; lia).
  assert (Point : count p (js ".") = flag (p 46%N))
    by (change (js ".") with [46%N]; rewrite count_cons;
        unfold flag; cbn; lia).
  assert (X : count p (decimal_digits (Z.abs e)) = 0%nat)
    by (apply count_digits; [apply H | apply decimal_digits_digits]).
  assert (M0 : count p m0 = 0%nat)
    by (apply count_digits; [apply H | exact D]).
  assert (M1 : count p (firstn 1 m0) = 0%nat)
    by (apply count_digits; [apply H | apply forallb_firstn, D]).
  assert (M2 : count p (skipn 1 m0) = 0%nat)
    by (apply count_digits; [apply H | apply forallb_skipn, D]).
  destruct neg, (f =? 0)%Z, (0 <=? e)%Z;
    rewrite !count_app, ?Minus, ?E, ?Plus, ?Point, ?X, ?M0, ?M1, ?M2;
    change (count p []) with 0%nat; lia.
Qed.

Lemma zeros_digits (n : Z) : forallb is_digit (zeros n) = true.
Proof.
  unfold zeros. induction (Z.to_nat n) as [| k IH]; [reflexivity | exact IH].
Qed.

Lemma count_toExponential (p : N -> bool) (v : number) (f : Z) :
  numeral_free p ->
  (count p (toExponential v f) <= flag (p 43%N) + flag (p 46%N))%nat.
Proof.
  intro H.
  assert (L : forall lit,
    forallb (fun c => existsb (N.eqb c) (js "NaInfity-e")) lit = true ->
    (count p lit <= flag (p 43%N) + flag (p 46%N))%nat)
    by (intros lit Hl; rewrite (count_literal p lit H Hl); lia).
  destruct v as [s | s | | s m e].
  - apply (count_exponential_form p false (zeros (f + 1)) f 0 H).
    apply zeros_digits.
  - destruct s; apply L; reflexivity.
  - apply L. reflexivity.
  - unfold toExponential.
    destruct (exact_ratio (S754_finite s m e)) as [num den].
    destruct (exponential_digits num den f) as [n e10].
    replace (lt (S754_finite s m e) zero) with s by (destruct s; reflexivity).
    apply (count_exponential_form p s (decimal_digits n) f e10 H).
    apply decimal_digits_digits.
Qed.

Lemma count_Number_toString (p : N -> bool) (v : number) :
  numeral_free p ->
  (count p (Number_toString v) <= flag (p 43%N) + flag (p 46%N))%nat.
Proof.
  intro H.
  assert (L : forall lit,
    forallb (fun c => existsb (N.eqb c) (js "NaInfity-e")) lit = true ->
    count p lit = 0%nat)
    by (intros lit Hl; apply (count_literal p lit H Hl)).
  destruct v as [s | s | | sg m e].
  - change (Number_toString (S754_zero s)) with [48%N].
    rewrite count_cons, (proj1 H 48%N eq_refl). cbn. lia.
  - destruct s; cbn [Number_toString]; rewrite L by reflexivity; lia.
  - cbn [Number_toString]. rewrite L by reflexivity. lia.
  - unfold Number_toString.
    destruct (shortest_digits (S754_finite sg m e)) as [[s k] n].
    set (ds := decimal_digits s).
    assert (D : forallb is_digit ds = true) by apply decimal_digits_digits.
    assert (Minus : count p (js "-") = 0%nat) by (apply L; reflexivity).
    assert (E : count p (js "e") = 0%nat) by (apply L; reflexivity).
    assert (Plus : count p (js "+") = flag (p 43%N))
      by (change (js "+") with [43%N]; rewrite count_cons;
          unfold flag; cbn; lia).
    assert (Point : count p (js ".") = flag (p 46%N))
      by (change (js ".") with [46%N]; rewrite count_cons;
          unfold flag; cbn; lia).
    assert (ZeroPoint : count p (js "0.") = flag (p 46%N))
      by (change (js "0.") with [48%N; 46%N]; rewrite !count_cons;
          rewrite (proj1 H 48%N eq_refl); unfold flag; cbn; lia).
    assert (X : count p (decimal_digits (Z.abs (n - 1))) = 0%nat)
      by (apply count_digits; [apply H | apply decimal_digits_digits]).
    assert (Dc : forall t, forallb is_digit t = true -> count p t = 0%nat)
      by (intros t Ht; apply count_digits; [apply H | exact Ht]).
    pose proof (Dc ds D) as M0.
    pose proof (Dc _ (forallb_firstn is_digit 1 ds D)) as M1.
    pose proof (Dc _ (forallb_skipn is_digit 1 ds D)) as M2.
    pose proof (Dc _ (forallb_firstn is_digit (Z.to_nat n) ds D)) as M3.
    pose proof (Dc _ (forallb_skipn is_digit (Z.to_nat n) ds D)) as M4.
    pose proof (Dc _ (zeros_digits (n - k))) as Z1.
    pose proof (Dc _ (zeros_digits (- n))) as Z2.
    destruct sg, ((k <=? n) && (n <=? 21)), ((0 <? n) && (n <=? 21)),
             ((-6 <? n) && (n <=? 0)), (k =? 1), (0 <=? n - 1);
      rewrite !count_app,
        ?Minus, ?E, ?Plus, ?Point, ?ZeroPoint, ?X, ?M0, ?M1, ?M2, ?M3, ?M4,
        ?Z1, ?Z2;
      change (count p []) with 0%nat; lia.
Qed.

Lemma starts_digits_app (a b : jsstring) :
  forallb is_digit a = true -> starts_with_operator b = false ->
  starts_with_operator (a ++ b) = false.
Proof.
  intros A B. destruct a as [| c a]; [exact B |].
  cbn [forallb] in A. apply andb_true_iff in A. destruct A as [Dc _].
  cbn [app starts_with_operator]. apply digit_not_operator. exact Dc.
Qed.

Lemma starts_digits (a : jsstring) :
  forallb is_digit a = true -> starts_with_operator a = false.
Proof.
  intro A. rewrite <- (app_nil_r a). apply starts_digits_app;
    [exact A | reflexivity].
Qed.

Lemma Number_toString_start (v : number) :
  starts_with_operator (Number_toString v) = false.
Proof.
  destruct v as [s | s | | sg m e]; try reflexivity.
  - destruct s; reflexivity.
  - unfold Number_toString.
    destruct (shortest_digits (S754_finite sg m e)) as [[s k] n].
    set (ds := decimal_digits s).
    assert (D : forallb is_digit ds = true) by apply decimal_digits_digits.
    destruct sg; [reflexivity |]. cbn [app].
    destruct ((k <=? n) && (n <=? 21)).
    { apply starts_digits_app; [exact D |].
      apply starts_digits, zeros_digits. }
    destruct ((0 <? n) && (n <=? 21)).
    { apply starts_digits_app; [apply forallb_firstn, D | reflexivity]. }
    destruct ((-6 <? n) && (n <=? 0)); [reflexivity |].
    destruct (k =? 1).
    { apply starts_digits_app; [exact D | reflexivity]. }
    apply starts_digits_app; [apply forallb_firstn, D | reflexivity].
Qed.

(* ================================================================== *)
(** * Operators are kept apart *)
(* ================================================================== *)

Lemma ends_with_operator_snoc (pre : jsstring) (c : N) :
  ends_with_operator (pre ++ [c]) = operator_class c.
Proof. unfold ends_with_operator. rewrite rev_unit. reflexivity. Qed.

Lemma no_adjacent_cons (c : N) (s : jsstring) :
  no_adjacent_operators (c :: s)
  = negb (operator_class c && starts_with_operator s)
    && no_adjacent_operators s.
Proof.
  destruct s as [| d s]; cbn [no_adjacent_operators starts_with_operator];
    [rewrite andb_false_r |]; reflexivity.
Qed.

Lemma no_adjacent_app (a b : jsstring) :
  no_adjacent_operators a = true -> no_adjacent_operators b = true ->
  ends_with_operator a && starts_with_operator b = false ->
  no_adjacent_operators (a ++ b) = true.
Proof.
  induction a as [| c a IH]; intros A B J; [exact B |].
  cbn [app]. rewrite no_adjacent_cons in A |- *.
  apply andb_true_iff in A. destruct A as [A1 A2].
  apply andb_true_iff. split.
  - destruct a as [| d a]; [| exact A1].
    cbn [app]. change (ends_with_operator [c]) with (operator_class c) in J.
    rewrite J. reflexivity.
  - apply IH; [exact A2 | exact B |].
    destruct a as [| d a]; [reflexivity |].
    destruct (@exists_last _ (d :: a)) as [pre [x E]]; [discriminate |].
    rewrite E in J |- *.
    change (c :: pre ++ [x]) with ((c :: pre) ++ [x]) in J.
    rewrite ends_with_operator_snoc in J |- *. exact J.
Qed.

Lemma no_adjacent_prefix (a b : jsstring) :
  no_adjacent_operators (a ++ b) = true -> no_adjacent_operators a = true.
Proof.
  induction a as [| c a IH]; intro H; [reflexivity |].
  cbn [app] in H. rewrite no_adjacent_cons in H |- *.
  apply andb_true_iff in H. destruct H as [H1 H2].
  rewrite (IH H2), andb_true_r.
  destruct a as [| d a]; [cbn; rewrite andb_false_r; reflexivity | exact H1].
Qed.

(** Before a last operator there is no operator. *)
Lemma no_adjacent_before_operator (pre : jsstring) (c : N) :
  no_adjacent_operators (pre ++ [c]) = true -> operator_class c = true ->
  ends_with_operator pre = false.
Proof.
  intros H C. destruct pre as [| d pre]; [reflexivity |].
  destruct (@exists_last _ (d :: pre)) as [q [x E]]; [discriminate |].
  rewrite E in H |- *. rewrite ends_with_operator_snoc.
  rewrite <- app_assoc in H. cbn [app] in H.
  clear E. induction q as [| y q IH].
  - cbn in H. rewrite C, !andb_true_r in H. apply negb_true_iff in H. exact H.
  - cbn [app] in H. rewrite no_adjacent_cons in H.
    apply andb_true_iff in H. apply IH, H.
Qed.

Lemma count_zero_start (s : jsstring) :
  count operator_class s = 0%nat -> starts_with_operator s = false.
Proof.
  destruct s as [| c s]; [reflexivity |].
  rewrite count_cons. cbn [starts_with_operator].
  destruct (operator_class c); [discriminate | reflexivity].
Qed.

Lemma count_one_no_adjacent (s : jsstring) :
  (count operator_class s <= 1)%nat -> no_adjacent_operators s = true.
Proof.
  induction s as [| c s IH]; [reflexivity |].
  rewrite count_cons, no_adjacent_cons. intro H.
  rewrite IH by lia. rewrite andb_true_r.
  destruct (operator_class c); [| reflexivity].
  rewrite count_zero_start by (cbn in H; lia). reflexivity.
Qed.

Section OperatorProperties.

Context {M : MathJs}.

Hypothesis format_keeps_operators_apart :
  forall v, no_adjacent_operators (format v 10) = true.

Lemma calculateResult_operators (e : jsstring) :
  no_adjacent_operators (calculateResult e) = true.
Proof.
  unfold calculateResult. destruct (is_empty (trim e)); [reflexivity |].
  destruct (evaluate (mathExpr e)) as [v |]; [| reflexivity].
  unfold formatResult. destruct (negb (isFinite v)); [reflexivity |].
  destruct (_ || _); [| apply format_keeps_operators_apart].
  apply count_one_no_adjacent.
  apply (count_toExponential operator_class v 6 operator_class_numeral_free).
Qed.

Lemma append_keeps_operators_apart (st : CalculatorState) (t : jsstring) :
  no_adjacent_operators (expression st) = true ->
  (count operator_class t <= 1)%nat -> starts_with_operator t = false ->
  no_adjacent_operators (expression st ++ t) = true.
Proof.
  intros I C S. apply no_adjacent_app;
    [exact I | apply count_one_no_adjacent, C |].
  rewrite S. apply andb_false_r.
Qed.

Lemma step_keeps_operators_apart (st : CalculatorState) (ev : event) :
  page_event ev ->
  no_adjacent_operators (expression st) = true ->
  no_adjacent_operators (expression (step st ev)) = true.
Proof.
  intros P I. destruct ev as [num | op | func | paren | | | | | func];
    cbn [page_event step] in *.
  - destruct P as [P _]. apply append_keeps_operators_apart;
      [exact I | lia | apply count_zero_start, P].
  - destruct (operator_glyph op P) as [g [-> G]].
    destruct (snoc_cases (expression st)) as [E | [pre [c E]]].
    + rewrite handleOperator_appends by (left; exact E).
      rewrite expression_updateExpression, E. reflexivity.
    + destruct (operator_class c) eqn:O.
      * rewrite (handleOperator_replaces st pre c [g] E O P).
        rewrite expression_updateExpression. rewrite E in I.
        apply no_adjacent_app;
          [apply (no_adjacent_prefix pre [c] I) | reflexivity |].
        rewrite (no_adjacent_before_operator pre c I O). reflexivity.
      * rewrite handleOperator_appends
          by (right; left; exists pre, c; split; assumption).
        rewrite expression_updateExpression.
        apply no_adjacent_app; [exact I | reflexivity |].
        rewrite E, ends_with_operator_snoc, O. reflexivity.
  - cbn in P.
    repeat (destruct P as [<- | P];
            [apply (append_keeps_operators_apart st _ I);
             [cbn; lia | reflexivity] |]).
    contradiction.
  - destruct P as [-> | ->];
      apply (append_keeps_operators_apart st _ I); (cbn; lia) || reflexivity.
  - unfold handleDecimal. destruct (negb _); [| exact I].
    apply (append_keeps_operators_apart st _ I); (cbn; lia) || reflexivity.
  - unfold handleBackspace. rewrite expression_updateExpression.
    destruct (snoc_cases (expression st)) as [E | [pre [c E]]]; rewrite E.
    + reflexivity.
    + rewrite slice_init_of_snoc. rewrite E in I.
      apply (no_adjacent_prefix pre [c] I).
  - reflexivity.
  - unfold handleCalculate. destruct (hasError st); [exact I |].
    cbn [expression]. destruct (str_eq _ _); [exact I |].
    apply calculateResult_operators.
  - unfold handleMemoryFunction.
    destruct (str_eq func (js "MC")); [exact I |].
    destruct (str_eq func (js "MR")).
    { rewrite expression_updateExpression.
      apply append_keeps_operators_apart;
        [exact I | | apply Number_toString_start].
      apply (count_Number_toString operator_class _
               operator_class_numeral_free). }
    destruct (str_eq func (js "M+")); [destruct (negb _); exact I |].
    destruct (str_eq func (js "M-")); [destruct (negb _); exact I |].
    exact I.
Qed.

(** X8. The page prevents consecutive operators.  When the library's
    [format] never prints two of + − × ÷ next to each other, every event of
    the page, and every key of the keyboard whose name holds no operator and
    no point when it holds a digit, keeps the expression free of adjacent
    operators, and so is the expression after any sequence of events from
    the initial state. *)
Theorem operators_kept_apart :
  (forall st ev, page_event ev ->
     no_adjacent_operators (expression st) = true ->
     no_adjacent_operators (expression (step st ev)) = true) /\
  (forall st key,
     (class_test is_digit key = true ->
      count operator_class key = 0%nat /\ count is_point key = 0%nat) ->
     no_adjacent_operators (expression st) = true ->
     no_adjacent_operators (expression (handleKeyDown st key)) = true) /\
  (forall evs, Forall page_event evs ->
     no_adjacent_operators (expression (run initialState evs)) = true).
Proof.
  split; [exact step_keeps_operators_apart |].
  split.
  { intros st key K I.
    destruct (handleKeyDown_event st key K) as [-> | [ev [P [_ ->]]]];
      [exact I | apply step_keeps_operators_apart; assumption]. }
  intro evs. unfold run.
  assert (G : forall st, no_adjacent_operators (expression st) = true ->
              Forall page_event evs ->
              no_adjacent_operators (expression (fold_left step evs st)) = true).
  { induction evs as [| ev evs IH]; intros st I F; [exact I |].
    inversion F as [| ? ? Pev Pevs]; subst. cbn [fold_left].
    apply IH; [| exact Pevs]. apply step_keeps_operators_apart; assumption. }
  apply G. reflexivity.
Qed.

End OperatorProperties.

(* ================================================================== *)
(** * The shape of what the sample library prints *)
(* ================================================================== *)

Lemma drop_zeros_cons (c : N) (s : jsstring) :
  Sample.drop_zeros (c :: s) = c :: s
  \/ Sample.drop_zeros (c :: s) = Sample.drop_zeros s.
Proof.
  destruct c as [| p]; [left; reflexivity |].
  do 6 (destruct p as [p | p |]; try (left; reflexivity)).
  right. reflexivity.
Qed.

Lemma drop_zeros_digits (s : jsstring) :
  forallb is_digit s = true -> forallb is_digit (Sample.drop_zeros s) = true.
Proof.
  induction s as [| c s IH]; intro H; [reflexivity |].
  destruct (drop_zeros_cons c s) as [E | E]; rewrite E; [exact H |].
  cbn [forallb] in H. apply andb_true_iff in H. apply IH, H.
Qed.

Lemma strip_trailing_zeros_digits (s : jsstring) :
  forallb is_digit s = true ->
  forallb is_digit (Sample.strip_trailing_zeros s) = true.
Proof.
  intro H. unfold Sample.strip_trailing_zeros.
  rewrite forallb_rev. apply drop_zeros_digits. rewrite forallb_rev. exact H.
Qed.

Lemma count_with_point (p : N -> bool) (a b : jsstring) :
  numeral_free p ->
  forallb is_digit a = true -> forallb is_digit b = true ->
  (count p (Sample.with_point a b) <= flag (p 46%N))%nat.
Proof.
  intros H A B. unfold Sample.with_point. destruct (is_empty b).
  - rewrite (count_digits p a (proj1 H) A). lia.
  - apply count_pointed; assumption.
Qed.

Lemma count_sample_format (p : N -> bool) (v : number) (precision : Z) :
  numeral_free p ->
  (count p (Sample.format v precision) <= flag (p 43%N) + flag (p 46%N))%nat.
Proof.
  intro H.
  assert (L : forall lit,
    forallb (fun c => existsb (N.eqb c) (js "NaInfity-e")) lit = true ->
    count p lit = 0%nat)
    by (intros lit Hl; apply (count_literal p lit H Hl)).
  destruct v as [s | s | | sg m e].
  - change (Sample.format (S754_zero s) precision) with [48%N].
    rewrite count_cons, (proj1 H 48%N eq_refl). cbn. lia.
  - destruct s; cbn [Sample.format]; rewrite L by reflexivity; lia.
  - cbn [Sample.format]. rewrite L by reflexivity. lia.
  - unfold Sample.format.
    destruct (exact_ratio (S754_finite sg m e)) as [num den].
    destruct (exponential_digits num den (precision - 1)) as [n e10].
    set (ds := Sample.strip_trailing_zeros (decimal_digits n)).
    assert (D : forallb is_digit ds = true)
      by apply strip_trailing_zeros_digits, decimal_digits_digits.
    set (padded := ds ++ zeros (e10 + 1 - Z.of_nat (List.length ds))).
    assert (Dp : forallb is_digit padded = true)
      by (unfold padded; rewrite forallb_app, D, zeros_digits; reflexivity).
    assert (Minus : count p (js "-") = 0%nat) by (apply L; reflexivity).
    assert (E : count p (js "e") = 0%nat) by (apply L; reflexivity).
    assert (Plus : count p (js "+") = flag (p 43%N))
      by (change (js "+") with [43%N]; rewrite count_cons;
          unfold flag; cbn; lia).
    assert (ZeroPoint : count p (js "0.") = flag (p 46%N))
      by (change (js "0.") with [48%N; 46%N]; rewrite !count_cons;
          rewrite (proj1 H 48%N eq_refl); unfold flag; cbn; lia).
    assert (Dc : forall t, forallb is_digit t = true -> count p t = 0%nat)
      by (intros t Ht; apply count_digits; [apply H | exact Ht]).
    pose proof (Dc _ (decimal_digits_digits (Z.abs e10))) as X.
    pose proof (Dc ds D) as M0.
    pose proof (Dc _ (zeros_digits (- e10 - 1))) as Z1.
    pose proof (count_with_point p (firstn 1 ds) (skipn 1 ds) H
                  (forallb_firstn is_digit 1 ds D)
                  (forallb_skipn is_digit 1 ds D)) as W1.
    pose proof (count_with_point p _ _ H
                  (forallb_firstn is_digit (Z.to_nat (e10 + 1)) padded Dp)
                  (forallb_skipn is_digit (Z.to_nat (e10 + 1)) padded Dp))
      as W2.
    destruct sg, ((e10 <? -3) || (5 <=? e10)), (e10 <? 0), (0 <=? e10);
      rewrite !count_app, ?Minus, ?E, ?Plus, ?ZeroPoint, ?X, ?M0, ?Z1;
      change (count p []) with 0%nat; lia.
Qed.

Lemma sample_format_operators (v : number) :
  no_adjacent_operators (Sample.format v 10) = true.
Proof.
  apply count_one_no_adjacent.
  apply (count_sample_format operator_class v 10 operator_class_numeral_free).
Qed.

Lemma operators_kept_apart_witness :
  no_adjacent_operators
    (expression (run (M := Sample.mathjs) initialState
       [Number (js "5"); Operator (js "+"); Operator (js "×");
        MemoryFunction (js "MR"); Operator (js "−"); Calculate;
        Operator (js "÷"); Backspace])) = true.
Proof.
  apply (proj2 (proj2
    (@operators_kept_apart Sample.mathjs sample_format_operators))).
  repeat (apply Forall_cons; [cbn; intuition reflexivity |]). apply Forall_nil.
Defined.

(* ================================================================== *)
(** * One decimal point per piece *)
(* ================================================================== *)

Lemma count_zero_forallb (p : N -> bool) (s : jsstring) :
  count p s = 0%nat <-> forallb (fun c => negb (p c)) s = true.
Proof.
  induction s as [| c s IH]; [split; reflexivity |].
  rewrite count_cons. cbn [forallb]. destruct (p c); cbn [negb andb].
  - split; [intro H; lia | discriminate].
  - exact IH.
Qed.

Lemma removelast_cons2 {A} (a b : A) (l : list A) :
  removelast (a :: b :: l) = a :: removelast (b :: l).
Proof. reflexivity. Qed.

(** Appending a string without separators extends the last piece. *)
Lemma split_class_extend (sep : N -> bool) (s t : jsstring) :
  forallb (fun c => negb (sep c)) t = true ->
  split_class sep (s ++ t)
  = removelast (split_class sep s) ++ [last (split_class sep s) [] ++ t].
Proof.
  intro T. induction s as [| x s IH].
  - cbn [app split_class removelast last].
    apply split_class_unbroken. exact T.
  - cbn [app split_class]. rewrite IH.
    pose proof (split_class_nonempty sep s) as NE.
    destruct (split_class sep s) as [| part parts]; [contradiction |].
    destruct (sep x).
    + rewrite removelast_cons2. reflexivity.
    + destruct parts as [| part' parts]; [reflexivity |].
      rewrite !removelast_cons2. reflexivity.
Qed.

Lemma Forall_removelast {A} (P : A -> Prop) (l : list A) :
  Forall P l -> Forall P (removelast l).
Proof.
  induction 1 as [| a l Ha Hl IH]; [constructor |].
  destruct l as [| b l]; [constructor |].
  rewrite removelast_cons2. constructor; assumption.
Qed.

Lemma Forall_last {A} (P : A -> Prop) (l : list A) (d : A) :
  l <> [] -> Forall P l -> P (last l d).
Proof.
  intros NE F. induction F as [| a l Ha Hl IH]; [contradiction |].
  destruct l as [| b l]; [exact Ha |].
  apply IH. discriminate.
Qed.

(** No piece holds more points than the whole string. *)
Lemma pieces_count (p sep : N -> bool) (s : jsstring) :
  Forall (fun piece => (count p piece <= count p s)%nat) (split_class sep s).
Proof.
  induction s as [| c s IH]; [repeat constructor |].
  cbn [split_class]. rewrite count_cons.
  assert (W : Forall (fun piece => (count p piece
               <= (if p c then 1 else 0) + count p s)%nat)
               (split_class sep s))
    by (eapply Forall_impl; [| exact IH]; cbn; intros; lia).
  destruct (sep c).
  - constructor; [change (count p []) with 0%nat; lia | exact W].
  - destruct (split_class sep s) as [| part parts]; [repeat constructor |].
    + rewrite count_cons. change (count p []) with 0%nat. lia.
    + inversion IH as [| ? ? Hp Hps]; subst.
      inversion W as [| ? ? _ Wps]; subst.
      constructor; [rewrite count_cons; lia | exact Wps].
Qed.

Lemma one_point_string (s : jsstring) :
  (count_points s <= 1)%nat -> one_point_per_piece s.
Proof.
  intro H. unfold one_point_per_piece.
  eapply Forall_impl; [| apply (pieces_count is_point operator_class s)].
  cbn. unfold count_points in *. intros; lia.
Qed.

(** Appending a string without operators and without points. *)
Lemma one_point_extend (s t : jsstring) :
  one_point_per_piece s ->
  count operator_class t = 0%nat ->
  (count_points (last (split_class operator_class s) []) + count_points t
   <= 1)%nat ->
  one_point_per_piece (s ++ t).
Proof.
  unfold one_point_per_piece. intros I T C.
  rewrite split_class_extend by (apply count_zero_forallb, T).
  apply Forall_app. split; [apply Forall_removelast, I |].
  constructor; [| constructor].
  unfold count_points in *. rewrite count_app. exact C.
Qed.

Lemma one_point_plain (s t : jsstring) :
  one_point_per_piece s ->
  count operator_class t = 0%nat -> count_points t = 0%nat ->
  one_point_per_piece (s ++ t).
Proof.
  intros I T P. apply (one_point_extend s t I T).
  rewrite P, Nat.add_0_r.
  apply (Forall_last _ _ [] (split_class_nonempty _ s) I).
Qed.

Lemma one_point_operator (s : jsstring) (g : N) :
  operator_class g = true ->
  one_point_per_piece s -> one_point_per_piece (s ++ [g]).
Proof.
  unfold one_point_per_piece. intros G I.
  rewrite (split_class_at operator_class s g [] G).
  apply Forall_app. split; [exact I | repeat constructor].
Qed.

Lemma one_point_init (pre : jsstring) (c : N) :
  one_point_per_piece (pre ++ [c]) -> one_point_per_piece pre.
Proof.
  unfold one_point_per_piece. intro I.
  destruct (operator_class c) eqn:C.
  - rewrite (split_class_at operator_class pre c [] C) in I.
    apply Forall_app in I. apply I.
  - rewrite split_class_extend in I by (cbn; rewrite C; reflexivity).
    apply Forall_app in I. destruct I as [I1 I2].
    inversion I2 as [| ? ? Hl _]; subst.
    rewrite (app_removelast_last [] (split_class_nonempty operator_class pre)).
    apply Forall_app. split; [exact I1 |].
    constructor; [| constructor].
    unfold count_points in *. rewrite count_app in Hl.
    exact (Nat.le_trans _ _ _ (Nat.le_add_r _ _) Hl).
Qed.

Section PointProperties.

Context {M : MathJs}.

Hypothesis format_one_point : forall v, one_point_per_piece (format v 10).

Lemma calculateResult_points (e : jsstring) :
  one_point_per_piece (calculateResult e).
Proof.
  unfold calculateResult.
  destruct (is_empty (trim e)); [repeat constructor |].
  destruct (evaluate (mathExpr e)) as [v |];
    [| apply one_point_string; cbn; lia].
  unfold formatResult.
  destruct (negb (isFinite v)); [apply one_point_string; cbn; lia |].
  destruct (_ || _); [| apply format_one_point].
  apply one_point_string.
  apply (count_toExponential is_point v 6 is_point_numeral_free).
Qed.

Lemma step_one_point (st : CalculatorState) (ev : event) :
  page_event ev -> ev <> MemoryFunction (js "MR") ->
  one_point_per_piece (expression st) ->
  one_point_per_piece (expression (step st ev)).
Proof.
  intros P NR I. destruct ev as [num | op | func | paren | | | | | func];
    cbn [page_event step] in *.
  - destruct P as [P1 P2]. apply one_point_plain; assumption.
  - destruct (operator_glyph op P) as [g [-> G]].
    destruct (snoc_cases (expression st)) as [E | [pre [c E]]].
    + rewrite handleOperator_appends by (left; exact E).
      rewrite expression_updateExpression.
      apply one_point_operator; assumption.
    + destruct (operator_class c) eqn:O.
      * rewrite (handleOperator_replaces st pre c [g] E O P).
        rewrite expression_updateExpression. rewrite E in I.
        apply one_point_operator; [exact G |].
        apply (one_point_init pre c I).
      * rewrite handleOperator_appends
          by (right; left; exists pre, c; split; assumption).
        rewrite expression_updateExpression.
        apply one_point_operator; assumption.
  - cbn in P.
    repeat (destruct P as [<- | P];
            [apply (one_point_plain (expression st) _ I); reflexivity |]).
    contradiction.
  - destruct P as [-> | ->];
      apply (one_point_plain (expression st) _ I); reflexivity.
  - unfold handleDecimal. rewrite index_last.
    destruct (includes _ _) eqn:D; cbn [negb]; [exact I |].
    rewrite expression_updateExpression.
    apply (one_point_extend (expression st) (js ".") I); [reflexivity |].
    replace (count_points (last (split_class operator_class (expression st)) []))
      with 0%nat; [cbn; lia |].
    symmetry. apply count_zero_forallb. apply forallb_forall.
    intros x Hx. apply negb_true_iff. unfold is_point.
    apply N.eqb_neq. intro X. subst x.
    apply includes_unit in Hx. change [DOT] with (js ".") in Hx.
    rewrite Hx in D. discriminate D.
  - unfold handleBackspace. rewrite expression_updateExpression.
    destruct (snoc_cases (expression st)) as [E | [pre [c E]]]; rewrite E.
    + repeat constructor.
    + rewrite slice_init_of_snoc. rewrite E in I.
      apply (one_point_init pre c I).
  - repeat constructor.
  - unfold handleCalculate. destruct (hasError st); [exact I |].
    cbn [expression]. destruct (str_eq _ _); [exact I |].
    apply calculateResult_points.
  - unfold handleMemoryFunction.
    destruct (str_eq func (js "MC")); [exact I |].
    destruct (str_eq func (js "MR")) eqn:R.
    { apply str_eq_true in R. subst func. contradiction. }
    destruct (str_eq func (js "M+")); [destruct (negb _); exact I |].
    destruct (str_eq func (js "M-")); [destruct (negb _); exact I |].
    exact I.
Qed.

(** X9. Between two operators of the expression there is at most one
    decimal point.  When the library's [format] prints at most one point
    per piece, every event of the page other than memory recall, and every
    key of the keyboard whose name holds no operator and no point when it
    holds a digit, keeps this, so it holds after any sequence of such events
    from the initial state. *)
Theorem one_point_between_operators :
  (forall st ev, page_event ev -> ev <> MemoryFunction (js "MR") ->
     one_point_per_piece (expression st) ->
     one_point_per_piece (expression (step st ev))) /\
  (forall st key,
     (class_test is_digit key = true ->
      count operator_class key = 0%nat /\ count is_point key = 0%nat) ->
     one_point_per_piece (expression st) ->
     one_point_per_piece (expression (handleKeyDown st key))) /\
  (forall evs,
     Forall (fun ev => page_event ev /\ ev <> MemoryFunction (js "MR")) evs ->
     one_point_per_piece (expression (run initialState evs))).
Proof.
  split; [exact step_one_point |].
  split.
  { intros st key K I.
    destruct (handleKeyDown_event st key K) as [-> | [ev [P [N ->]]]];
      [exact I | apply step_one_point; assumption]. }
  intro evs. unfold run.
  assert (G : forall st, one_point_per_piece (expression st) ->
              Forall (fun ev => page_event ev
                                /\ ev <> MemoryFunction (js "MR")) evs ->
              one_point_per_piece (expression (fold_left step evs st))).
  { induction evs as [| ev evs IH]; intros st I F; [exact I |].
    inversion F as [| ? ? [Pev Nev] Pevs]; subst. cbn [fold_left].
    apply IH; [| exact Pevs]. apply step_one_point; assumption. }
  apply G. repeat constructor.
Qed.

End PointProperties.

Lemma sample_format_points (v : number) :
  one_point_per_piece (Sample.format v 10).
Proof.
  apply one_point_string.
  apply (count_sample_format is_point v 10 is_point_numeral_free).
Qed.

Lemma one_point_between_operators_witness :
  one_point_per_piece
    (expression (run (M := Sample.mathjs) initialState
       [Number (js "1"); Decimal; Number (js "5"); Decimal;
        Operator (js "÷"); Number (js "3"); Calculate; Decimal;
        Backspace])).
Proof.
  apply (proj2 (proj2 (@one_point_between_operators Sample.mathjs
                         sample_format_points))).
  repeat (apply Forall_cons;
          [split; [cbn; intuition reflexivity | discriminate] |]).
  apply Forall_nil.
Defined.

(* ================================================================== *)
(** * The error flag *)
(* ================================================================== *)

Lemma capital_E_numeral_free : numeral_free is_capital_E.
Proof.
  split; [| reflexivity].
  unfold is_digit, is_capital_E. intros c H.
  apply andb_true_iff in H. destruct H as [L U].
  apply N.leb_le in L, U. apply N.eqb_neq. lia.
Qed.

Lemma toExponential_not_error (v : number) (f : Z) :
  toExponential v f <> js "Error".
Proof.
  intro H.
  pose proof (count_toExponential is_capital_E v f capital_E_numeral_free)
    as C.
  rewrite H in C. vm_compute in C. lia.
Qed.

Section ErrorProperties.

Context {M : MathJs}.

Hypothesis format_not_error :
  forall v, isFinite v = true -> format v 10 <> js "Error".

Lemma formatResult_error (v : number) :
  formatResult v = js "Error" <-> isFinite v = false.
Proof.
  split; [| apply formatResult_nonfinite].
  unfold formatResult. destruct (isFinite v) eqn:F; [| reflexivity].
  cbn [negb]. destruct (_ || _); intro H; exfalso.
  - exact (toExponential_not_error v 6 H).
  - exact (format_not_error v F H).
Qed.

(** X10. When the library's [format] never prints "Error" for a finite
    number, [formatResult] prints "Error" for the non-finite numbers and
    for no other number.  So on a non-blank input on which the evaluator
    returns a number, the adapter returns "Error", and a handler that
    updates the expression raises [hasError], exactly when that number is
    not finite. *)
Theorem error_only_for_non_finite :
  (forall v, formatResult v = js "Error" <-> isFinite v = false) /\
  (forall expr v,
     forallb is_white_space expr = false ->
     evaluate (mathExpr expr) = Some v ->
     (calculateResult expr = js "Error" <-> isFinite v = false) /\
     (forall st,
        hasError (updateExpression st expr) = true <-> isFinite v = false)).
Proof.
  split; [exact formatResult_error |].
  intros expr v W E.
  assert (G : calculateResult expr = js "Error" <-> isFinite v = false).
  { rewrite (calculateResult_evaluated expr v W E).
    apply formatResult_error. }
  split; [exact G |].
  intro st. rewrite <- G. cbn [updateExpression hasError].
  apply str_eq_true.
Qed.

End ErrorProperties.

Lemma sample_format_not_error (v : number) :
  isFinite v = true -> Sample.format v 10 <> js "Error".
Proof.
  intros _ H.
  pose proof (count_sample_format is_capital_E v 10 capital_E_numeral_free)
    as C.
  rewrite H in C. vm_compute in C. lia.
Qed.

Lemma error_only_for_non_finite_witness :
  formatResult (M := Sample.mathjs) (literal "14") <> js "Error" /\
  calculateResult (M := Sample.mathjs) (js "0÷0") = js "Error" /\
  hasError (updateExpression (M := Sample.mathjs) initialState (js "0÷0"))
  = true.
Proof.
  destruct (@error_only_for_non_finite Sample.mathjs sample_format_not_error)
    as [Printed Returned].
  split.
  - intro H. apply Printed in H. discriminate H.
  - destruct (Returned (js "0÷0") NaN eq_refl eq_refl) as [Result Flag].
    split; [apply Result | apply Flag]; reflexivity.
Defined.

(* ================================================================== *)
(** * The memory *)
(* ================================================================== *)

Lemma sub_self (x : number) :
  isFinite x = true -> sub x x = zero.
Proof.
  destruct x as [s | s | | s m e]; intro F; try discriminate F.
  - destruct s; reflexivity.
  - unfold sub, SFsub. rewrite Z.min_id, Z.sub_diag. reflexivity.
Qed.

Lemma add_zero_left (x : number) :
  isFinite x = true -> isFinite (add zero x) = true /\
  sub (add zero x) x = zero.
Proof.
  destruct x as [s | s | | s m e]; intro F; try discriminate F.
  - destruct s; split; reflexivity.
  - split; [reflexivity |].
    change (add zero (S754_finite s m e)) with (S754_finite s m e).
    apply sub_self. reflexivity.
Qed.

Section MemoryProperties.

Context {M : MathJs}.

Lemma step_memory_zero (st : CalculatorState) (ev : event) :
  ev <> MemoryFunction (js "M+") -> ev <> MemoryFunction (js "M-") ->
  memory st = zero -> memory (step st ev) = zero.
Proof.
  intros NP NM Z.
  destruct (event_is_memory_clear ev) eqn:C.
  - destruct ev as [| | | | | | | | func]; try discriminate C.
    cbn [event_is_memory_clear] in C. apply str_eq_true in C. subst func.
    reflexivity.
  - rewrite memory_step; [exact Z |].
    intros [E | [E | E]]; [| contradiction | contradiction].
    subst ev. cbn in C. discriminate C.
Qed.

(** X11. Until M+ or M- is used the memory is zero: after any sequence of
    events without them the memory indicator is not shown and memory recall
    enters a 0, like the 0 key.  From a zero memory, M+ followed by M- on a
    result that parses to a finite number gives a zero memory again. *)
Theorem memory_until_used :
  (forall evs,
     Forall (fun ev => ev <> MemoryFunction (js "M+")
                       /\ ev <> MemoryFunction (js "M-")) evs ->
     let st := run initialState evs in
     memory st = zero /\ memoryIndicator st = None /\
     handleMemoryFunction st (js "MR") = handleNumber st (js "0")) /\
  (forall st,
     memory st = zero -> isFinite (parseFloat (result st)) = true ->
     memory (handleMemoryFunction
               (handleMemoryFunction st (js "M+")) (js "M-")) = zero).
Proof.
  split.
  - intros evs F st.
    assert (Z : memory st = zero).
    { subst st. unfold run.
      assert (G : forall s, memory s = zero ->
                  memory (fold_left step evs s) = zero).
      { induction evs as [| ev evs IH]; intros s Zs; [exact Zs |].
        inversion F as [| ? ? [NP NM] Fevs]; subst. cbn [fold_left].
        apply (IH Fevs). apply step_memory_zero; assumption. }
      apply G. reflexivity. }
    split; [exact Z |]. split.
    + unfold memoryIndicator. rewrite Z. reflexivity.
    + unfold handleMemoryFunction. eval_str_eq. rewrite Z. reflexivity.
  - intros st Z F.
    assert (N : isNaN (parseFloat (result st)) = false)
      by (destruct (parseFloat (result st)); try discriminate F; reflexivity).
    unfold handleMemoryFunction. eval_str_eq. rewrite N. cbn [negb].
    cbn [setMemory result memory]. rewrite N. cbn [negb setMemory memory].
    rewrite Z. apply (add_zero_left _ F).
Qed.

End MemoryProperties.

(* ================================================================== *)
(** * The further properties on the sample library *)
(* ================================================================== *)

Lemma backspace_undoes_entry_witness :
  let st := updateExpression (M := Sample.mathjs) initialState (js "2+3") in
  run (M := Sample.mathjs)
      (handleScientificFunction (M := Sample.mathjs) st (js "sin"))
      (repeat Backspace 4) = st /\
  run (M := Sample.mathjs)
      (handleScientificFunction (M := Sample.mathjs) st (js "x²"))
      (repeat Backspace 2) = st /\
  handleBackspace (M := Sample.mathjs)
      (handleScientificFunction (M := Sample.mathjs) st (js "x^y")) = st.
Proof.
  intro st.
  destruct (@backspace_undoes_entry Sample.mathjs st)
    as [_ [_ [_ [F [_ [Square Power]]]]]].
  - reflexivity.
  - split; intro H; vm_compute in H; discriminate H.
  - split; [| split; [exact Square | exact Power]].
    apply (F (js "sin")). cbn. tauto.
Defined.

Lemma backspace_clears_witness :
  let st := updateExpression (M := Sample.mathjs) initialState (js "2+") in
  run (M := Sample.mathjs) st (repeat Backspace 3)
  = handleClearAll st.
Proof.
  apply (@backspace_clears Sample.mathjs); cbn; lia.
Defined.

Lemma operator_keys_last_wins_witness :
  let st := updateExpression (M := Sample.mathjs) initialState (js "5") in
  run (M := Sample.mathjs) st
      (map Operator [js "+"; js "×"; js "+"] ++ [Operator (js "−")])
  = handleOperator (M := Sample.mathjs) st (js "−").
Proof.
  apply (@operator_keys_last_wins Sample.mathjs).
  - repeat (apply Forall_cons; [cbn; tauto |]). apply Forall_nil.
  - cbn. tauto.
Defined.

Lemma memory_until_used_witness :
  let st := run (M := Sample.mathjs) initialState
                [Number (js "7"); MemoryFunction (js "MC"); Calculate] in
  memory st = zero /\ memoryIndicator (M := Sample.mathjs) st = None /\
  handleMemoryFunction (M := Sample.mathjs) st (js "MR")
  = handleNumber (M := Sample.mathjs) st (js "0").
Proof.
  apply (proj1 (@memory_until_used Sample.mathjs)).
  repeat (apply Forall_cons; [split; discriminate |]). apply Forall_nil.
Defined.
